(** * mcpmux.install: the installer scripts and the front-end that serves them

    The repository is one file, [src/index.ts]: a Hono application whose
    handlers return three constant texts, the install script, the APT setup
    script and an HTML landing page.  The two scripts are bash programs run
    under [set -euo pipefail].  This development embeds

    - the front-end handlers as functions from requests to responses
      (module [Frontend]);
    - the install script as a program in a small shell monad over a file
      system and an event trace (modules [Shell] and [Installer]);
    - the APT setup script in the same monad (module [AptSetup]).

    What the host answers (which commands exist, what a URL returns, whether
    a package manager succeeds) is a record of inputs, [Shell.Env]. *)

From Stdlib Require Import Ascii String ZArith Lia.
From stdpp Require Import base strings gmap list.

Local Open Scope string_scope.
Local Open Scope Z_scope.

(** ** Text helpers *)

Module Text.

(** The double quote and the line feed, built from their codes. *)
Definition dq_char : ascii := Ascii.ascii_of_nat 34.
Definition lf_char : ascii := Ascii.ascii_of_nat 10.
Definition dq : string := String dq_char "".
Definition nl : string := String lf_char "".

(** Every line followed by a line feed. *)
Fixpoint unlines (ls : list string) : string :=
  match ls with
  | [] => ""
  | l :: ls' => l +:+ nl +:+ unlines ls'
  end.

(** Lines separated by line feeds, none after the last. *)
Fixpoint join_lines (ls : list string) : string :=
  match ls with
  | [] => ""
  | [l] => l
  | l :: ls' => l +:+ nl +:+ join_lines ls'
  end.

(** [includes s sub]: JavaScript's [s.includes(sub)], and [grep] with a
    pattern of ordinary characters on one line. *)
Fixpoint includes (s sub : string) : bool :=
  String.prefix sub s ||
  match s with
  | "" => false
  | String _ s' => includes s' sub
  end.

(** The lines of a text as the line-oriented tools read it: each line ends at
    a line feed, and a last line without one still counts. *)
Fixpoint lines_from (cur s : string) : list string :=
  match s with
  | "" => if String.eqb cur "" then [] else [cur]
  | String c s' =>
      if Ascii.eqb c lf_char then cur :: lines_from "" s'
      else lines_from (cur +:+ String c "") s'
  end.

Definition lines (s : string) : list string := lines_from "" s.

(** [tr a b]: every [a] replaced by [b]. *)
Fixpoint tr (a b : ascii) (s : string) : string :=
  match s with
  | "" => ""
  | String c s' => String (if Ascii.eqb c a then b else c) (tr a b s')
  end.

(** [basename] of a path without a trailing slash: what follows the last
    slash. *)
Fixpoint basename_from (cur s : string) : string :=
  match s with
  | "" => cur
  | String c s' =>
      if Ascii.eqb c "/"%char then basename_from "" s'
      else basename_from (cur +:+ String c "") s'
  end.

Definition basename (path : string) : string := basename_from "" path.

End Text.

(** ** The front-end: [app.get('/')], [app.get('/install.sh')] and the rest *)

Module Frontend.
Import Text.

(** The text returned by [installScript()], one entry per line. *)
Definition installScript_lines : list string :=
  [ "#!/usr/bin/env bash"
  ; "# McpMux Installer"
  ; "# Usage: curl -fsSL https://install.mcpmux.com | bash"
  ; "#    or: curl -fsSL https://install.mcpmux.com | bash -s -- --version 0.0.12"
  ; "set -euo pipefail"
  ; ""
  ; "GITHUB_REPO=" +:+ dq +:+ "mcpmux/mcp-mux" +:+ dq
  ; "VERSION=" +:+ dq +:+ dq
  ; "SKIP_VERIFY=false"
  ; ""
  ; "# ── Helpers ──────────────────────────────────────────────────────────"
  ; ""
  ; "info()  { printf '\033[1;34m%s\033[0m\n' " +:+ dq +:+ "$*" +:+ dq +:+ "; }"
  ; "ok()    { printf '\033[1;32m%s\033[0m\n' " +:+ dq +:+ "$*" +:+ dq +:+ "; }"
  ; "warn()  { printf '\033[1;33m%s\033[0m\n' " +:+ dq +:+ "$*" +:+ dq +:+ " >&2; }"
  ; "fail()  { printf '\033[1;31mError: %s\033[0m\n' " +:+ dq +:+ "$*" +:+ dq +:+ " >&2; exit 1; }"
  ; ""
  ; "need() {"
  ; "  command -v " +:+ dq +:+ "$1" +:+ dq +:+ " &>/dev/null || fail " +:+ dq +:+ "'$1' is required but not installed." +:+ dq
  ; "}"
  ; ""
  ; "# ── Parse args ───────────────────────────────────────────────────────"
  ; ""
  ; "while [[ $# -gt 0 ]]; do"
  ; "  case " +:+ dq +:+ "$1" +:+ dq +:+ " in"
  ; "    --version|-v)  VERSION=" +:+ dq +:+ "$2" +:+ dq +:+ "; shift 2 ;;"
  ; "    --skip-verify) SKIP_VERIFY=true; shift ;;"
  ; "    --help|-h)"
  ; "      echo " +:+ dq +:+ "Usage: install.sh [--version VERSION] [--skip-verify]" +:+ dq
  ; "      exit 0"
  ; "      ;;"
  ; "    *) fail " +:+ dq +:+ "Unknown option: $1" +:+ dq +:+ " ;;"
  ; "  esac"
  ; "done"
  ; ""
  ; "# ── Prerequisites ────────────────────────────────────────────────────"
  ; ""
  ; "need curl"
  ; ""
  ; "# ── Detect architecture ─────────────────────────────────────────────"
  ; ""
  ; "ARCH=$(uname -m)"
  ; "case " +:+ dq +:+ "$ARCH" +:+ dq +:+ " in"
  ; "  x86_64)  ARCH=" +:+ dq +:+ "amd64" +:+ dq +:+ " ;;"
  ; "  aarch64) ARCH=" +:+ dq +:+ "arm64" +:+ dq +:+ " ;;"
  ; "  *) fail " +:+ dq +:+ "Unsupported architecture: $ARCH" +:+ dq +:+ " ;;"
  ; "esac"
  ; ""
  ; "info " +:+ dq +:+ "Detected architecture: $ARCH" +:+ dq
  ; ""
  ; "# ── Resolve version ─────────────────────────────────────────────────"
  ; ""
  ; "if [[ -z " +:+ dq +:+ "$VERSION" +:+ dq +:+ " ]]; then"
  ; "  info " +:+ dq +:+ "Fetching latest release..." +:+ dq
  ; "  VERSION=$(curl -fsSL " +:+ dq +:+ "https://api.github.com/repos/${GITHUB_REPO}/releases/latest" +:+ dq +:+ " \"
  ; "    | grep '" +:+ dq +:+ "tag_name" +:+ dq +:+ "' | head -1 | sed 's/.*" +:+ dq +:+ "v\([^" +:+ dq +:+ "]*\)" +:+ dq +:+ ".*/\1/')"
  ; "  [[ -n " +:+ dq +:+ "$VERSION" +:+ dq +:+ " ]] || fail " +:+ dq +:+ "Could not determine latest version" +:+ dq
  ; "fi"
  ; ""
  ; "info " +:+ dq +:+ "Installing McpMux v${VERSION}" +:+ dq
  ; ""
  ; "# ── GPG verification helper ─────────────────────────────────────────"
  ; ""
  ; "verify_signature() {"
  ; "  local file=" +:+ dq +:+ "$1" +:+ dq
  ; "  if [[ " +:+ dq +:+ "$SKIP_VERIFY" +:+ dq +:+ " == " +:+ dq +:+ "true" +:+ dq +:+ " ]]; then"
  ; "    warn " +:+ dq +:+ "Skipping signature verification (--skip-verify)" +:+ dq
  ; "    return 0"
  ; "  fi"
  ; "  if ! command -v gpg &>/dev/null; then"
  ; "    warn " +:+ dq +:+ "gpg not found — skipping signature verification" +:+ dq
  ; "    warn " +:+ dq +:+ "Install gnupg and re-run, or use --skip-verify to suppress this warning" +:+ dq
  ; "    return 0"
  ; "  fi"
  ; ""
  ; "  local sig_url=" +:+ dq +:+ "https://github.com/${GITHUB_REPO}/releases/download/v${VERSION}/$(basename " +:+ dq +:+ "$file" +:+ dq +:+ ").sig" +:+ dq
  ; "  local sig_file=" +:+ dq +:+ "${file}.sig" +:+ dq
  ; ""
  ; "  if curl -fsSL -o " +:+ dq +:+ "$sig_file" +:+ dq +:+ " " +:+ dq +:+ "$sig_url" +:+ dq +:+ " 2>/dev/null; then"
  ; "    # Import McpMux signing key if not already present"
  ; "    if ! gpg --list-keys hello@mcpmux.com &>/dev/null 2>&1; then"
  ; "      curl -fsSL https://apt.mcpmux.com/key.gpg | gpg --import --quiet 2>/dev/null || true"
  ; "    fi"
  ; "    if gpg --verify " +:+ dq +:+ "$sig_file" +:+ dq +:+ " " +:+ dq +:+ "$file" +:+ dq +:+ " 2>/dev/null; then"
  ; "      ok " +:+ dq +:+ "Signature verified" +:+ dq
  ; "    else"
  ; "      warn " +:+ dq +:+ "Signature verification failed — package may not be signed yet" +:+ dq
  ; "    fi"
  ; "    rm -f " +:+ dq +:+ "$sig_file" +:+ dq
  ; "  else"
  ; "    warn " +:+ dq +:+ "No signature file found — skipping verification" +:+ dq
  ; "  fi"
  ; "}"
  ; ""
  ; "# ── Install via detected package manager ─────────────────────────────"
  ; ""
  ; "install_deb() {"
  ; "  local deb_name=" +:+ dq +:+ "mcpmux_${VERSION}_${ARCH}.deb" +:+ dq
  ; "  local deb_url=" +:+ dq +:+ "https://github.com/${GITHUB_REPO}/releases/download/v${VERSION}/${deb_name}" +:+ dq
  ; "  local tmp=" +:+ dq +:+ "/tmp/mcpmux.deb" +:+ dq
  ; ""
  ; "  info " +:+ dq +:+ "Downloading .deb package..." +:+ dq
  ; "  curl -fsSL -o " +:+ dq +:+ "$tmp" +:+ dq +:+ " " +:+ dq +:+ "$deb_url" +:+ dq +:+ " || fail " +:+ dq +:+ "Download failed: $deb_url" +:+ dq
  ; "  verify_signature " +:+ dq +:+ "$tmp" +:+ dq
  ; ""
  ; "  info " +:+ dq +:+ "Installing..." +:+ dq
  ; "  sudo apt-get install -y " +:+ dq +:+ "$tmp" +:+ dq
  ; "  rm -f " +:+ dq +:+ "$tmp" +:+ dq
  ; ""
  ; "  echo " +:+ dq +:+ dq
  ; "  info " +:+ dq +:+ "Tip: For automatic updates via apt, add the McpMux repository:" +:+ dq
  ; "  echo " +:+ dq +:+ "  curl -fsSL https://install.mcpmux.com/apt | sudo bash" +:+ dq
  ; "}"
  ; ""
  ; "install_rpm() {"
  ; "  local rpm_name=" +:+ dq +:+ "mcpmux-${VERSION}-1.${ARCH}.rpm" +:+ dq
  ; "  local rpm_url=" +:+ dq +:+ "https://github.com/${GITHUB_REPO}/releases/download/v${VERSION}/${rpm_name}" +:+ dq
  ; "  local tmp=" +:+ dq +:+ "/tmp/mcpmux.rpm" +:+ dq
  ; ""
  ; "  info " +:+ dq +:+ "Downloading .rpm package..." +:+ dq
  ; "  curl -fsSL -o " +:+ dq +:+ "$tmp" +:+ dq +:+ " " +:+ dq +:+ "$rpm_url" +:+ dq +:+ " || fail " +:+ dq +:+ "Download failed: $rpm_url" +:+ dq
  ; "  verify_signature " +:+ dq +:+ "$tmp" +:+ dq
  ; ""
  ; "  info " +:+ dq +:+ "Installing..." +:+ dq
  ; "  sudo dnf install -y " +:+ dq +:+ "$tmp" +:+ dq
  ; "  rm -f " +:+ dq +:+ "$tmp" +:+ dq
  ; "}"
  ; ""
  ; "install_pacman() {"
  ; "  if command -v yay &>/dev/null; then"
  ; "    info " +:+ dq +:+ "Installing from AUR via yay..." +:+ dq
  ; "    yay -S mcpmux-bin"
  ; "  elif command -v paru &>/dev/null; then"
  ; "    info " +:+ dq +:+ "Installing from AUR via paru..." +:+ dq
  ; "    paru -S mcpmux-bin"
  ; "  else"
  ; "    warn " +:+ dq +:+ "No AUR helper found (yay or paru)." +:+ dq
  ; "    echo " +:+ dq +:+ dq
  ; "    echo " +:+ dq +:+ "Option 1: Install an AUR helper first:" +:+ dq
  ; "    echo " +:+ dq +:+ "  sudo pacman -S --needed git base-devel" +:+ dq
  ; "    echo " +:+ dq +:+ "  git clone https://aur.archlinux.org/yay-bin.git && cd yay-bin && makepkg -si" +:+ dq
  ; "    echo " +:+ dq +:+ "  yay -S mcpmux-bin" +:+ dq
  ; "    echo " +:+ dq +:+ dq
  ; "    echo " +:+ dq +:+ "Option 2: Download the AppImage:" +:+ dq
  ; "    echo " +:+ dq +:+ "  https://github.com/${GITHUB_REPO}/releases/latest" +:+ dq
  ; "    exit 1"
  ; "  fi"
  ; "}"
  ; ""
  ; "install_appimage() {"
  ; "  local appimage_name=" +:+ dq +:+ "McpMux_${VERSION}_${ARCH}.AppImage" +:+ dq
  ; "  local appimage_url=" +:+ dq +:+ "https://github.com/${GITHUB_REPO}/releases/download/v${VERSION}/${appimage_name}" +:+ dq
  ; "  local install_dir=" +:+ dq +:+ "${HOME}/.local/bin" +:+ dq
  ; "  local install_path=" +:+ dq +:+ "${install_dir}/McpMux.AppImage" +:+ dq
  ; ""
  ; "  info " +:+ dq +:+ "No supported package manager found — installing AppImage..." +:+ dq
  ; "  mkdir -p " +:+ dq +:+ "$install_dir" +:+ dq
  ; ""
  ; "  info " +:+ dq +:+ "Downloading AppImage..." +:+ dq
  ; "  curl -fsSL -o " +:+ dq +:+ "$install_path" +:+ dq +:+ " " +:+ dq +:+ "$appimage_url" +:+ dq +:+ " || fail " +:+ dq +:+ "Download failed: $appimage_url" +:+ dq
  ; "  verify_signature " +:+ dq +:+ "$install_path" +:+ dq
  ; "  chmod +x " +:+ dq +:+ "$install_path" +:+ dq
  ; ""
  ; "  ok " +:+ dq +:+ "Installed to ${install_path}" +:+ dq
  ; ""
  ; "  # Check if ~/.local/bin is in PATH"
  ; "  if ! echo " +:+ dq +:+ "$PATH" +:+ dq +:+ " | tr ':' '\n' | grep -qx " +:+ dq +:+ "$install_dir" +:+ dq +:+ "; then"
  ; "    echo " +:+ dq +:+ dq
  ; "    warn " +:+ dq +:+ "~/.local/bin is not in your PATH. Add it with:" +:+ dq
  ; "    echo '  echo '\''export PATH=" +:+ dq +:+ "$HOME/.local/bin:$PATH" +:+ dq +:+ "'\'' >> ~/.bashrc'"
  ; "    echo '  source ~/.bashrc'"
  ; "  fi"
  ; "}"
  ; ""
  ; "# ── Main ─────────────────────────────────────────────────────────────"
  ; ""
  ; "# Check if APT repo is already configured (prefer managed updates)"
  ; "if [[ -f /etc/apt/sources.list.d/mcpmux.list ]]; then"
  ; "  info " +:+ dq +:+ "McpMux APT repository detected — using apt..." +:+ dq
  ; "  sudo apt-get update && sudo apt-get install -y mcpmux"
  ; "elif command -v apt-get &>/dev/null; then"
  ; "  install_deb"
  ; "elif command -v dnf &>/dev/null; then"
  ; "  install_rpm"
  ; "elif command -v pacman &>/dev/null; then"
  ; "  install_pacman"
  ; "else"
  ; "  install_appimage"
  ; "fi"
  ; ""
  ; "echo " +:+ dq +:+ dq
  ; "ok " +:+ dq +:+ "McpMux installed successfully!" +:+ dq
  ; "echo " +:+ dq +:+ "Run 'mcpmux' to start." +:+ dq
  ].

(** The text returned by [aptSetupScript()], one entry per line. *)
Definition aptSetupScript_lines : list string :=
  [ "#!/usr/bin/env bash"
  ; "# McpMux APT Repository Setup"
  ; "# Usage: curl -fsSL https://install.mcpmux.com/apt | sudo bash"
  ; "set -euo pipefail"
  ; ""
  ; "info()  { printf '\033[1;34m%s\033[0m\n' " +:+ dq +:+ "$*" +:+ dq +:+ "; }"
  ; "ok()    { printf '\033[1;32m%s\033[0m\n' " +:+ dq +:+ "$*" +:+ dq +:+ "; }"
  ; "fail()  { printf '\033[1;31mError: %s\033[0m\n' " +:+ dq +:+ "$*" +:+ dq +:+ " >&2; exit 1; }"
  ; ""
  ; "# Must run as root"
  ; "[[ $(id -u) -eq 0 ]] || fail " +:+ dq +:+ "This script must be run as root (use: curl ... | sudo bash)" +:+ dq
  ; ""
  ; "info " +:+ dq +:+ "Adding McpMux APT repository..." +:+ dq
  ; ""
  ; "# Add GPG key"
  ; "curl -fsSL https://apt.mcpmux.com/key.gpg | gpg --dearmor -o /usr/share/keyrings/mcpmux-archive-keyring.gpg"
  ; ""
  ; "# Add APT source"
  ; "echo " +:+ dq +:+ "deb [arch=$(dpkg --print-architecture) signed-by=/usr/share/keyrings/mcpmux-archive-keyring.gpg] https://apt.mcpmux.com stable main" +:+ dq +:+ " \"
  ; "  > /etc/apt/sources.list.d/mcpmux.list"
  ; ""
  ; "# Install"
  ; "apt-get update"
  ; "apt-get install -y mcpmux"
  ; ""
  ; "ok " +:+ dq +:+ "McpMux installed!" +:+ dq
  ; "echo " +:+ dq +:+ "Updates will arrive automatically via 'apt upgrade'." +:+ dq
  ].

(** The text returned by [landingPage()], one entry per line. *)
Definition landingPage_lines : list string :=
  [ "<!DOCTYPE html>"
  ; "<html lang=" +:+ dq +:+ "en" +:+ dq +:+ ">"
  ; "<head>"
  ; "  <meta charset=" +:+ dq +:+ "utf-8" +:+ dq +:+ ">"
  ; "  <meta name=" +:+ dq +:+ "viewport" +:+ dq +:+ " content=" +:+ dq +:+ "width=device-width, initial-scale=1" +:+ dq +:+ ">"
  ; "  <title>Install McpMux</title>"
  ; "  <style>"
  ; "    * { margin: 0; padding: 0; box-sizing: border-box; }"
  ; "    body { font-family: -apple-system, BlinkMacSystemFont, " +:+ dq +:+ "Segoe UI" +:+ dq +:+ ", Roboto, sans-serif; background: #0a0a0a; color: #e5e5e5; min-height: 100vh; display: flex; align-items: center; justify-content: center; }"
  ; "    .container { max-width: 640px; padding: 2rem; }"
  ; "    h1 { font-size: 2rem; margin-bottom: 0.5rem; color: #fff; }"
  ; "    p { margin-bottom: 1.5rem; color: #a3a3a3; line-height: 1.6; }"
  ; "    .code-block { background: #171717; border: 1px solid #262626; border-radius: 8px; padding: 1rem 1.25rem; font-family: " +:+ dq +:+ "SF Mono" +:+ dq +:+ ", " +:+ dq +:+ "Fira Code" +:+ dq +:+ ", monospace; font-size: 0.9rem; margin-bottom: 1.5rem; position: relative; overflow-x: auto; }"
  ; "    .code-block code { color: #22c55e; }"
  ; "    .label { font-size: 0.75rem; text-transform: uppercase; letter-spacing: 0.05em; color: #737373; margin-bottom: 0.5rem; }"
  ; "    a { color: #3b82f6; text-decoration: none; }"
  ; "    a:hover { text-decoration: underline; }"
  ; "    .divider { border: none; border-top: 1px solid #262626; margin: 1.5rem 0; }"
  ; "  </style>"
  ; "</head>"
  ; "<body>"
  ; "  <div class=" +:+ dq +:+ "container" +:+ dq +:+ ">"
  ; "    <h1>Install McpMux</h1>"
  ; "    <p>Configure MCP servers once, connect every AI client through a single endpoint.</p>"
  ; ""
  ; "    <div class=" +:+ dq +:+ "label" +:+ dq +:+ ">Quick install</div>"
  ; "    <div class=" +:+ dq +:+ "code-block" +:+ dq +:+ "><code>curl -fsSL https://install.mcpmux.com | bash</code></div>"
  ; ""
  ; "    <div class=" +:+ dq +:+ "label" +:+ dq +:+ ">Specific version</div>"
  ; "    <div class=" +:+ dq +:+ "code-block" +:+ dq +:+ "><code>curl -fsSL https://install.mcpmux.com | bash -s -- --version 0.0.12</code></div>"
  ; ""
  ; "    <div class=" +:+ dq +:+ "label" +:+ dq +:+ ">APT repository (Debian/Ubuntu)</div>"
  ; "    <div class=" +:+ dq +:+ "code-block" +:+ dq +:+ "><code>curl -fsSL https://install.mcpmux.com/apt | sudo bash</code></div>"
  ; ""
  ; "    <hr class=" +:+ dq +:+ "divider" +:+ dq +:+ ">"
  ; ""
  ; "    <p>"
  ; "      <a href=" +:+ dq +:+ "https://github.com/mcpmux/mcp-mux" +:+ dq +:+ ">GitHub</a> &middot;"
  ; "      <a href=" +:+ dq +:+ "https://mcpmux.com" +:+ dq +:+ ">Website</a> &middot;"
  ; "      <a href=" +:+ dq +:+ "https://github.com/mcpmux/mcpmux.install" +:+ dq +:+ ">View source</a> &middot;"
  ; "      <a href=" +:+ dq +:+ "/?raw=1" +:+ dq +:+ ">View script</a>"
  ; "    </p>"
  ; "  </div>"
  ; "</body>"
  ; "</html>"
  ].

Definition installScript : string := unlines installScript_lines.
Definition aptSetupScript : string := unlines aptSetupScript_lines.
Definition landingPage : string := join_lines landingPage_lines.

(** A request, as far as the handlers look at it: [c.req.header('User-Agent')]
    and [c.req.query('raw')] are a string or [undefined]. *)
Inductive Method := GET | OtherMethod.

Record Request := {
  method : Method;
  path : string;
  user_agent : option string;
  query_raw : option string
}.

(** A response, by the call that builds it. *)
Inductive Response :=
| Html (body : string)
| NewResponse (body : string) (headers : list (string * string))
| Json (fields : list (string * string))
| Text (body : string) (status : nat).

(** JavaScript's truth value of a string or [undefined]: only a non-empty
    string is truthy. *)
Definition truthy (v : option string) : bool :=
  match v with
  | Some s => negb (String.eqb s "")
  | None => false
  end.

Definition script_headers : list (string * string) :=
  [ ("Content-Type", "text/plain; charset=utf-8");
    ("Cache-Control", "public, max-age=300") ].

Definition isBrowser (req : Request) : bool :=
  let ua := default "" (user_agent req) in
  includes ua "Mozilla" || includes ua "Chrome" || includes ua "Safari".

Definition handle_root (req : Request) : Response :=
  if isBrowser req && negb (truthy (query_raw req))
  then Html landingPage
  else NewResponse installScript script_headers.

Definition handle_install_sh (req : Request) : Response :=
  NewResponse installScript script_headers.

Definition handle_apt (req : Request) : Response :=
  NewResponse aptSetupScript script_headers.

Definition handle_health (req : Request) : Response :=
  Json [ ("status", "ok"); ("service", "mcpmux-install") ].

Definition notFound (req : Request) : Response :=
  Text "Not found. Visit https://install.mcpmux.com for installation instructions." 404.

Definition app (req : Request) : Response :=
  match method req with
  | GET =>
      if String.eqb (path req) "/" then handle_root req
      else if String.eqb (path req) "/install.sh" then handle_install_sh req
      else if String.eqb (path req) "/apt" then handle_apt req
      else if String.eqb (path req) "/health" then handle_health req
      else notFound req
  | OtherMethod => notFound req
  end.

Definition body_of (r : Response) : option string :=
  match r with
  | Html b | NewResponse b _ | Text b _ => Some b
  | Json _ => None
  end.

(** A header the handler sets itself; what the framework adds is not part of
    the source. *)
Fixpoint assoc (k : string) (l : list (string * string)) : option string :=
  match l with
  | [] => None
  | (k', v) :: l' => if String.eqb k k' then Some v else assoc k l'
  end.

Definition header (name : string) (r : Response) : option string :=
  match r with
  | NewResponse _ hs => assoc name hs
  | _ => None
  end.

End Frontend.

(** ** The shell: state, events and the monad of a script under [set -e] *)

Module Shell.
Import Text.

(** What a run does that can be observed, in order. *)
Inductive Event :=
| LogInfo (msg : string)        (* info(): standard output *)
| LogOk (msg : string)          (* ok(): standard output *)
| LogWarn (msg : string)        (* warn(): diagnostic output *)
| LogFail (msg : string)        (* fail(): diagnostic output, "Error: msg" *)
| Echo (line : string)          (* echo: standard output *)
| ShellErr (msg : string)       (* a message of the shell itself *)
| Net (url : string)            (* one curl request *)
| Run (argv : list string).     (* a package manager or gpg started *)

Record File := { content : string; executable : bool }.

Record State := { fs : gmap string File; trace : list Event }.

(** [curl -fsSL url]: the body, or a failure with curl's non-zero status and
    nothing written. *)
Inductive CurlResult :=
| CurlOk (body : string)
| CurlErr (code : positive).

(** The host and the network, as the scripts ask them. *)
Record Env := {
  uname_m : string;                         (* uname -m *)
  HOME : string;
  PATH : string;
  command_v : string -> bool;               (* command -v NAME succeeds *)
  curl : string -> CurlResult;
  gpg_list_keys : bool;                     (* gpg --list-keys hello@mcpmux.com *)
  gpg_verify : string -> string -> bool;    (* gpg --verify SIG FILE, by contents *)
  exec : list string -> Z;                  (* exit status of a started command *)
  id_u : Z;                                 (* id -u *)
  dpkg_arch : string;                       (* dpkg --print-architecture *)
  gpg_dearmor : string -> option string;    (* gpg --dearmor on its input *)
  gpg_overwrite : bool                      (* gpg may replace an existing output file *)
}.

(** A command either returns or ends the process with an exit code. *)
Inductive Res (A : Type) :=
| Ret (a : A)
| Exit (code : Z).
Arguments Ret {A} a.
Arguments Exit {A} code.

Definition M (A : Type) : Type := State -> Res A * State.

#[global] Instance M_ret : MRet M := fun A a st => (Ret a, st).

#[global] Instance M_bind : MBind M := fun A B k m st =>
  match m st with
  | (Ret a, st') => k a st'
  | (Exit c, st') => (Exit c, st')
  end.

Definition get : M State := fun st => (Ret st, st).

Definition exit {A} (code : Z) : M A := fun st => (Exit code, st).

Definition emit (e : Event) : M unit := fun st =>
  (Ret tt, {| fs := fs st; trace := trace st ++ [e] |}).

(** [set -e]: a command that fails outside a condition ends the script with
    its status. *)
Definition errexit (status : Z) : M unit :=
  if status =? 0 then mret tt else exit status.

(** [set -o pipefail]: the status of a pipeline is that of the last command
    in it that failed. *)
Fixpoint pipefail (statuses : list Z) : Z :=
  match statuses with
  | [] => 0
  | s :: rest => let r := pipefail rest in if r =? 0 then s else r
  end.

(** The commands that only touch the user's own files ([mkdir -p], [rm -f],
    [chmod +x], a redirection) are taken to succeed; directories are not
    part of the state.

    Writing through [curl -o], [gpg -o] or [>]: the content is replaced, the
    mode of a file that exists is kept. *)
Definition write_file (path body : string) : M unit := fun st =>
  let x := match fs st !! path with
           | Some f => executable f
           | None => false
           end in
  (Ret tt, {| fs := <[path := {| content := body; executable := x |}]> (fs st);
              trace := trace st |}).

(** [rm -f path] *)
Definition remove_file (path : string) : M unit := fun st =>
  (Ret tt, {| fs := delete path (fs st); trace := trace st |}).

(** [chmod +x path] *)
Definition chmod_x (path : string) : M unit := fun st =>
  (Ret tt, {| fs := alter (fun f => {| content := content f; executable := true |})
                          path (fs st);
              trace := trace st |}).

(** [curl -fsSL url], the request recorded. *)
Definition curl_get (env : Env) (url : string) : M CurlResult :=
  emit (Net url);; mret (curl env url).

(** [curl -fsSL -o path url]: whether it succeeded. *)
Definition curl_o (env : Env) (path url : string) : M bool :=
  r ← curl_get env url;
  match r with
  | CurlOk body => write_file path body;; mret true
  | CurlErr _ => mret false
  end.

(** A command started, and its exit status. *)
Definition run (env : Env) (argv : list string) : M Z :=
  emit (Run argv);; mret (exec env argv).

(** The helpers both scripts define. *)
Definition info (msg : string) : M unit := emit (LogInfo msg).
Definition ok (msg : string) : M unit := emit (LogOk msg).
Definition warn (msg : string) : M unit := emit (LogWarn msg).
Definition fail {A} (msg : string) : M A := emit (LogFail msg);; exit 1.
Definition echo (line : string) : M unit := emit (Echo line).

(** The requests a run made, in order. *)
Definition net_calls (st : State) : list string :=
  omap (fun e => match e with Net u => Some u | _ => None end) (trace st).

(** The state a script starts in. *)
Definition start (files : gmap string File) : State :=
  {| fs := files; trace := [] |}.

End Shell.

(** ** The install script *)

Module Installer.
Import Text Shell.

Definition GITHUB_REPO : string := "mcpmux/mcp-mux".

(** The script's global variables once they are set. *)
Record Ctx := { VERSION : string; ARCH : string; SKIP_VERIFY : bool }.

(** [need NAME] *)
Definition need (env : Env) (name : string) : M unit :=
  if command_v env name then mret tt
  else fail ("'" +:+ name +:+ "' is required but not installed.").

(** The argument loop, started with [VERSION=""] and [SKIP_VERIFY=false].
    [--version] as the last word reads the unset [$2], which ends the script
    under [set -u]. *)
Fixpoint parse_args (args : list string) (version : string) (skip : bool)
  : M (string * bool) :=
  match args with
  | [] => mret (version, skip)
  | a :: rest =>
      if String.eqb a "--version" || String.eqb a "-v" then
        match rest with
        | v :: rest' => parse_args rest' v skip
        | [] => emit (ShellErr "$2: unbound variable");; exit 1
        end
      else if String.eqb a "--skip-verify" then parse_args rest version true
      else if String.eqb a "--help" || String.eqb a "-h" then
        echo "Usage: install.sh [--version VERSION] [--skip-verify]";; exit 0
      else fail ("Unknown option: " +:+ a)
  end.

(** Architecture detection: the [case] on [uname -m]. *)
Definition detect_arch (env : Env) : M string :=
  let arch := uname_m env in
  if String.eqb arch "x86_64" then mret "amd64"
  else if String.eqb arch "aarch64" then mret "arm64"
  else fail ("Unsupported architecture: " +:+ arch).

(** *** Version resolution *)

Definition latest_url : string :=
  "https://api.github.com/repos/" +:+ GITHUB_REPO +:+ "/releases/latest".

(** The pattern of [grep]: tag_name between double quotes. *)
Definition tag_pattern : string := dq +:+ "tag_name" +:+ dq.

(** The text before the first double quote, when there is one. *)
Fixpoint until_quote (s : string) : option string :=
  match s with
  | "" => None
  | String c s' =>
      if Ascii.eqb c dq_char then Some ""
      else String c <$> until_quote s'
  end.

(** The group of the [sed] expression, [.*] a quote, v, a group of
    non-quotes, a quote, [.*]: the leading [.*] is greedy, so the group
    starts after the last quote-v that is closed by a later quote. *)
Fixpoint sed_capture (s : string) : option string :=
  match s with
  | "" => None
  | String c s' =>
      match sed_capture s' with
      | Some cap => Some cap
      | None =>
          if Ascii.eqb c dq_char then
            match s' with
            | String "v" s'' => until_quote s''
            | _ => None
            end
          else None
      end
  end.

(** [sed 's/.../\1/']: a line the expression does not match passes through
    unchanged. *)
Definition sed_strip_v (line : string) : string :=
  default line (sed_capture line).

(** [grep PATTERN]: the lines that hold the pattern. *)
Definition grep (pattern : string) (ls : list string) : list string :=
  List.filter (fun l => includes l pattern) ls.

Definition resolve_version (env : Env) (version : string) : M string :=
  if String.eqb version "" then
    info "Fetching latest release...";;
    r ← curl_get env latest_url;
    let '(curl_status, body) :=
      match r with
      | CurlOk b => (0, b)
      | CurlErr c => (Z.pos c, "")
      end in
    let tagged := grep tag_pattern (lines body) in
    let grep_status := match tagged with [] => 1 | _ => 0 end in
    let out := sed_strip_v <$> take 1 tagged in
    errexit (pipefail [curl_status; grep_status; 0; 0]);;
    let version := join_lines out in
    if String.eqb version "" then fail "Could not determine latest version"
    else mret version
  else mret version.

(** *** Signature verification *)

(** The branch [verify_signature] took.  The shell function itself only
    returns status 0 and logs. *)
Inductive VerificationOutcome :=
| Verified
| SkippedByFlag
| SkippedNoTool
| SkippedNoSignature
| FailedSoft.

Definition release_url (c : Ctx) (name : string) : string :=
  "https://github.com/" +:+ GITHUB_REPO +:+ "/releases/download/v"
    +:+ VERSION c +:+ "/" +:+ name.

Definition key_url : string := "https://apt.mcpmux.com/key.gpg".

Definition sig_url_of (c : Ctx) (file : string) : string :=
  release_url c (basename file +:+ ".sig").

(** [gpg --verify sig file] on the files as they are. *)
Definition gpg_verify_files (env : Env) (sig file : string) : M bool :=
  st ← get;
  run env ["gpg"; "--verify"; sig; file];;
  mret match fs st !! sig, fs st !! file with
       | Some s, Some f => gpg_verify env (content s) (content f)
       | _, _ => false
       end.

Definition verify_signature (env : Env) (c : Ctx) (file : string)
  : M VerificationOutcome :=
  if SKIP_VERIFY c then
    warn "Skipping signature verification (--skip-verify)";;
    mret SkippedByFlag
  else if negb (command_v env "gpg") then
    warn "gpg not found — skipping signature verification";;
    warn "Install gnupg and re-run, or use --skip-verify to suppress this warning";;
    mret SkippedNoTool
  else
    let sig_url := sig_url_of c file in
    let sig_file := file +:+ ".sig" in
    fetched ← curl_o env sig_file sig_url;
    if fetched : bool then
      (if negb (gpg_list_keys env) then
         (* curl ... | gpg --import --quiet || true *)
         curl_get env key_url;;
         run env ["gpg"; "--import"; "--quiet"];;
         mret tt
       else mret tt);;
      good ← gpg_verify_files env sig_file file;
      outcome ← (if good : bool then ok "Signature verified";; mret Verified
                 else warn "Signature verification failed — package may not be signed yet";;
                      mret FailedSoft);
      remove_file sig_file;;
      mret outcome
    else
      warn "No signature file found — skipping verification";;
      mret SkippedNoSignature.

(** The outcome by the conditions of the branches: the flag, the presence
    of [gpg], the download of the signature, and [gpg --verify] on the
    signature just fetched and the artifact as it is on disk. *)
Definition expected_outcome (env : Env) (c : Ctx) (file : string) (st : State)
  : VerificationOutcome :=
  if SKIP_VERIFY c then SkippedByFlag
  else if negb (command_v env "gpg") then SkippedNoTool
  else match curl env (sig_url_of c file) with
       | CurlErr _ => SkippedNoSignature
       | CurlOk sig =>
           match fs st !! file with
           | Some f => if gpg_verify env sig (content f) then Verified else FailedSoft
           | None => FailedSoft
           end
       end.

(** *** The install functions *)

Definition deb_name (c : Ctx) : string :=
  "mcpmux_" +:+ VERSION c +:+ "_" +:+ ARCH c +:+ ".deb".
Definition deb_tmp : string := "/tmp/mcpmux.deb".
Definition deb_install_cmd : list string :=
  ["sudo"; "apt-get"; "install"; "-y"; deb_tmp].

Definition rpm_name (c : Ctx) : string :=
  "mcpmux-" +:+ VERSION c +:+ "-1." +:+ ARCH c +:+ ".rpm".
Definition rpm_tmp : string := "/tmp/mcpmux.rpm".
Definition rpm_install_cmd : list string :=
  ["sudo"; "dnf"; "install"; "-y"; rpm_tmp].

(** [curl -fsSL -o path url || fail "Download failed: url"] *)
Definition download (env : Env) (path url : string) : M unit :=
  fetched ← curl_o env path url;
  if fetched : bool then mret tt else fail ("Download failed: " +:+ url).

Definition install_deb (env : Env) (c : Ctx) : M unit :=
  let deb_url := release_url c (deb_name c) in
  info "Downloading .deb package...";;
  download env deb_tmp deb_url;;
  verify_signature env c deb_tmp;;
  info "Installing...";;
  s ← run env deb_install_cmd;
  errexit s;;
  remove_file deb_tmp;;
  echo "";;
  info "Tip: For automatic updates via apt, add the McpMux repository:";;
  echo "  curl -fsSL https://install.mcpmux.com/apt | sudo bash".

Definition install_rpm (env : Env) (c : Ctx) : M unit :=
  let rpm_url := release_url c (rpm_name c) in
  info "Downloading .rpm package...";;
  download env rpm_tmp rpm_url;;
  verify_signature env c rpm_tmp;;
  info "Installing...";;
  s ← run env rpm_install_cmd;
  errexit s;;
  remove_file rpm_tmp.

Inductive AurHelper := Yay | Paru.

Definition yay_cmd : list string := ["yay"; "-S"; "mcpmux-bin"].
Definition paru_cmd : list string := ["paru"; "-S"; "mcpmux-bin"].

(** The helper [install_pacman] uses: [yay] first, then [paru]. *)
Definition select_helper (env : Env) : option AurHelper :=
  if command_v env "yay" then Some Yay
  else if command_v env "paru" then Some Paru
  else None.

Definition install_pacman (env : Env) : M unit :=
  match select_helper env with
  | Some Yay =>
      info "Installing from AUR via yay...";;
      s ← run env yay_cmd;
      errexit s
  | Some Paru =>
      info "Installing from AUR via paru...";;
      s ← run env paru_cmd;
      errexit s
  | None =>
      warn "No AUR helper found (yay or paru).";;
      echo "";;
      echo "Option 1: Install an AUR helper first:";;
      echo "  sudo pacman -S --needed git base-devel";;
      echo "  git clone https://aur.archlinux.org/yay-bin.git && cd yay-bin && makepkg -si";;
      echo "  yay -S mcpmux-bin";;
      echo "";;
      echo "Option 2: Download the AppImage:";;
      echo ("  https://github.com/" +:+ GITHUB_REPO +:+ "/releases/latest");;
      exit 1
  end.

Definition appimage_name (c : Ctx) : string :=
  "McpMux_" +:+ VERSION c +:+ "_" +:+ ARCH c +:+ ".AppImage".
Definition install_dir (env : Env) : string := HOME env +:+ "/.local/bin".
Definition install_path (env : Env) : string :=
  install_dir env +:+ "/McpMux.AppImage".

(** [grep -x PATTERN] on one line.  The pattern is a basic regular
    expression: an ordinary character stands for itself and a dot for any
    one character.  The other special characters (backslash, bracket, star,
    caret, dollar) are outside this model; the install directory always
    holds the dot of [.local]. *)
Fixpoint bre_match_line (pattern line : string) : bool :=
  match pattern, line with
  | "", "" => true
  | String p pattern', String ch line' =>
      (Ascii.eqb p "."%char || Ascii.eqb p ch) && bre_match_line pattern' line'
  | _, _ => false
  end.

(** [echo "$PATH" | tr ':' '\n'] *)
Definition path_entries (env : Env) : list string :=
  lines (tr ":"%char lf_char (PATH env +:+ nl)).

(** [echo "$PATH" | tr ':' '\n' | grep -qx "$install_dir"] *)
Definition in_search_path (env : Env) : bool :=
  existsb (bre_match_line (install_dir env)) (path_entries env).

Definition path_warning : string :=
  "~/.local/bin is not in your PATH. Add it with:".

Definition install_appimage (env : Env) (c : Ctx) : M unit :=
  let appimage_url := release_url c (appimage_name c) in
  info "No supported package manager found — installing AppImage...";;
  (* mkdir -p "$install_dir" *)
  info "Downloading AppImage...";;
  download env (install_path env) appimage_url;;
  verify_signature env c (install_path env);;
  chmod_x (install_path env);;
  ok ("Installed to " +:+ install_path env);;
  if negb (in_search_path env) then
    echo "";;
    warn path_warning;;
    echo ("  echo 'export PATH=" +:+ dq +:+ "$HOME/.local/bin:$PATH" +:+ dq
          +:+ "' >> ~/.bashrc");;
    echo "  source ~/.bashrc"
  else mret tt.

(** *** The main dispatch *)

Inductive PackageManagerStrategy :=
| ManagedRepo
| AptGet
| Dnf
| PacmanAUR
| AppImageFallback.

(** The four tests of the [if]/[elif] chain. *)
Record Flags := {
  hasAptRepoConfigured : bool;   (* [[ -f /etc/apt/sources.list.d/mcpmux.list ]] *)
  hasAptGet : bool;              (* command -v apt-get *)
  hasDnf : bool;                 (* command -v dnf *)
  hasPacman : bool               (* command -v pacman *)
}.

Definition apt_list_path : string := "/etc/apt/sources.list.d/mcpmux.list".

Definition probe (env : Env) (st : State) : Flags :=
  {| hasAptRepoConfigured := bool_decide (is_Some (fs st !! apt_list_path));
     hasAptGet := command_v env "apt-get";
     hasDnf := command_v env "dnf";
     hasPacman := command_v env "pacman" |}.

Definition select_strategy (f : Flags) : PackageManagerStrategy :=
  if hasAptRepoConfigured f then ManagedRepo
  else if hasAptGet f then AptGet
  else if hasDnf f then Dnf
  else if hasPacman f then PacmanAUR
  else AppImageFallback.

(** [sudo apt-get update && sudo apt-get install -y mcpmux]: when the first
    command fails the second is not run, and the failure does not end the
    script, since it is not the last command of the list. *)
Definition install_managed (env : Env) : M unit :=
  info "McpMux APT repository detected — using apt...";;
  s ← run env ["sudo"; "apt-get"; "update"];
  if s =? 0 then
    s' ← run env ["sudo"; "apt-get"; "install"; "-y"; "mcpmux"];
    errexit s'
  else mret tt.

Definition run_strategy (env : Env) (c : Ctx) (s : PackageManagerStrategy)
  : M unit :=
  match s with
  | ManagedRepo => install_managed env
  | AptGet => install_deb env c
  | Dnf => install_rpm env c
  | PacmanAUR => install_pacman env
  | AppImageFallback => install_appimage env c
  end.

Definition main (env : Env) (c : Ctx) : M unit :=
  st ← get;
  run_strategy env c (select_strategy (probe env st)).

(** The script from its first line to its last. *)
Definition install_sh (env : Env) (args : list string) : M unit :=
  '(version, skip) ← parse_args args "" false;
  need env "curl";;
  arch ← detect_arch env;
  info ("Detected architecture: " +:+ arch);;
  version ← resolve_version env version;
  info ("Installing McpMux v" +:+ version);;
  main env {| VERSION := version; ARCH := arch; SKIP_VERIFY := skip |};;
  echo "";;
  ok "McpMux installed successfully!";;
  echo "Run 'mcpmux' to start.".

End Installer.

(** ** The APT setup script *)

Module AptSetup.
Import Text Shell.

Definition keyring_path : string :=
  "/usr/share/keyrings/mcpmux-archive-keyring.gpg".
Definition list_path : string := "/etc/apt/sources.list.d/mcpmux.list".
Definition key_url : string := "https://apt.mcpmux.com/key.gpg".

(** The line [echo] writes to the source list. *)
Definition source_entry (arch : string) : string :=
  "deb [arch=" +:+ arch +:+ " signed-by=" +:+ keyring_path
    +:+ "] https://apt.mcpmux.com stable main".

(** [gpg --dearmor -o keyring_path] on [input].  The command has neither
    [--yes] nor [--batch]: gpg replaces an output file that exists only when
    it is allowed to ([gpg_overwrite]), and fails with status 2 otherwise or
    when the input cannot be read as a key. *)
Definition gpg_dearmor_to (env : Env) (path input : string) : M Z :=
  emit (Run ["gpg"; "--dearmor"; "-o"; path]);;
  st ← get;
  if bool_decide (is_Some (fs st !! path)) && negb (gpg_overwrite env) then mret 2
  else match gpg_dearmor env input with
       | Some key => write_file path key;; mret 0
       | None => mret 2
       end.

Definition apt_setup (env : Env) : M unit :=
  (if id_u env =? 0 then mret tt
   else fail "This script must be run as root (use: curl ... | sudo bash)");;
  info "Adding McpMux APT repository...";;
  (* curl -fsSL key_url | gpg --dearmor -o keyring_path *)
  r ← curl_get env key_url;
  let '(curl_status, armored) :=
    match r with
    | CurlOk b => (0, b)
    | CurlErr c => (Z.pos c, "")
    end in
  gpg_status ← gpg_dearmor_to env keyring_path armored;
  errexit (pipefail [curl_status; gpg_status]);;
  (* echo "deb [arch=$(dpkg --print-architecture) ...] ..." > list_path *)
  write_file list_path (source_entry (dpkg_arch env) +:+ nl);;
  s ← run env ["apt-get"; "update"];
  errexit s;;
  s ← run env ["apt-get"; "install"; "-y"; "mcpmux"];
  errexit s;;
  ok "McpMux installed!";;
  echo "Updates will arrive automatically via 'apt upgrade'.".

(** What a write leaves at [path]: the new content under the mode the file
    had. *)
Definition written (files : gmap string File) (path body : string) : File :=
  {| content := body;
     executable := match files !! path with
                   | Some f => executable f
                   | None => false
                   end |}.

(** The files after a run as a function of the files before it, read off
    [apt_setup]: nothing is written without root or when gpg writes nothing;
    the source list is written only when the key pipeline succeeded. *)
Definition files_after_setup (env : Env) (files : gmap string File)
  : gmap string File :=
  if id_u env =? 0 then
    let '(curl_status, armored) :=
      match curl env key_url with
      | CurlOk b => (0, b)
      | CurlErr c => (Z.pos c, "")
      end in
    if bool_decide (is_Some (files !! keyring_path)) && negb (gpg_overwrite env)
    then files
    else match gpg_dearmor env armored with
         | Some key =>
             let files1 := <[keyring_path := written files keyring_path key]> files in
             if curl_status =? 0 then
               <[list_path := written files1 list_path
                                (source_entry (dpkg_arch env) +:+ nl)]> files1
             else files1
         | None => files
         end
  else files.


End AptSetup.

(** ** Sample hosts *)

Module Samples.
Import Text Shell Installer.

(** The body of a release-metadata answer, as one line. *)
Definition latest_json (tag : string) : string :=
  "{" +:+ dq +:+ "tag_name" +:+ dq +:+ ":" +:+ dq +:+ tag +:+ dq +:+ "}".

(** A host on which everything asked for exists and succeeds: every command
    is installed, every URL answers, the release metadata names v0.0.12. *)
Definition host : Env :=
  {| uname_m := "x86_64";
     HOME := "/home/u";
     PATH := "/usr/local/bin:/usr/bin:/bin";
     command_v := fun _ => true;
     curl := fun url =>
       if String.eqb url latest_url then CurlOk (latest_json "v0.0.12")
       else CurlOk "payload";
     gpg_list_keys := true;
     gpg_verify := fun _ _ => true;
     exec := fun _ => 0;
     id_u := 0;
     dpkg_arch := "amd64";
     gpg_dearmor := fun armored => Some ("binary:" +:+ armored);
     gpg_overwrite := true |}.

(** The same host with other installed commands. *)
Definition with_commands (installed : list string) (env : Env) : Env :=
  {| uname_m := uname_m env; HOME := HOME env; PATH := PATH env;
     command_v := fun name => existsb (String.eqb name) installed;
     curl := curl env; gpg_list_keys := gpg_list_keys env;
     gpg_verify := gpg_verify env; exec := exec env; id_u := id_u env;
     dpkg_arch := dpkg_arch env; gpg_dearmor := gpg_dearmor env;
     gpg_overwrite := gpg_overwrite env |}.

(** The same host on which one command fails with a status. *)
Definition with_failing (argv : list string) (status : Z) (env : Env) : Env :=
  {| uname_m := uname_m env; HOME := HOME env; PATH := PATH env;
     command_v := command_v env; curl := curl env;
     gpg_list_keys := gpg_list_keys env; gpg_verify := gpg_verify env;
     exec := fun a => if bool_decide (a = argv) then status else exec env a;
     id_u := id_u env; dpkg_arch := dpkg_arch env;
     gpg_dearmor := gpg_dearmor env; gpg_overwrite := gpg_overwrite env |}.

(** The same host with another search path. *)
Definition with_path (path : string) (env : Env) : Env :=
  {| uname_m := uname_m env; HOME := HOME env; PATH := path;
     command_v := command_v env; curl := curl env;
     gpg_list_keys := gpg_list_keys env; gpg_verify := gpg_verify env;
     exec := exec env; id_u := id_u env; dpkg_arch := dpkg_arch env;
     gpg_dearmor := gpg_dearmor env; gpg_overwrite := gpg_overwrite env |}.

(** The same host with another machine identifier. *)
Definition with_machine (machine : string) (env : Env) : Env :=
  {| uname_m := machine; HOME := HOME env; PATH := PATH env;
     command_v := command_v env; curl := curl env;
     gpg_list_keys := gpg_list_keys env; gpg_verify := gpg_verify env;
     exec := exec env; id_u := id_u env; dpkg_arch := dpkg_arch env;
     gpg_dearmor := gpg_dearmor env; gpg_overwrite := gpg_overwrite env |}.

(** The same host with another answer of the release-metadata endpoint. *)
Definition with_latest (answer : CurlResult) (env : Env) : Env :=
  {| uname_m := uname_m env; HOME := HOME env; PATH := PATH env;
     command_v := command_v env;
     curl := fun url => if String.eqb url latest_url then answer else curl env url;
     gpg_list_keys := gpg_list_keys env; gpg_verify := gpg_verify env;
     exec := exec env; id_u := id_u env; dpkg_arch := dpkg_arch env;
     gpg_dearmor := gpg_dearmor env; gpg_overwrite := gpg_overwrite env |}.

Definition ctx : Ctx :=
  {| VERSION := "0.0.12"; ARCH := "amd64"; SKIP_VERIFY := false |}.

Definition ctx_skip : Ctx :=
  {| VERSION := "0.0.12"; ARCH := "amd64"; SKIP_VERIFY := true |}.

(** A state in which both files of the configurator hold old content. *)
Definition stale : State :=
  start (<[AptSetup.keyring_path := {| content := "old key"; executable := false |}]>
         (<[AptSetup.list_path := {| content := "old entry"; executable := false |}]> ∅)).

End Samples.

(** ** The claims in the words of the specification *)

Module Spec.
Import Installer.

(** The fixed precedence of the strategies. *)
Definition precedence : list PackageManagerStrategy :=
  [ManagedRepo; AptGet; Dnf; PacmanAUR; AppImageFallback].

(** The precondition of each strategy; the fallback has none. *)
Definition precondition (f : Flags) (s : PackageManagerStrategy) : bool :=
  match s with
  | ManagedRepo => hasAptRepoConfigured f
  | AptGet => hasAptGet f
  | Dnf => hasDnf f
  | PacmanAUR => hasPacman f
  | AppImageFallback => true
  end.

(** The first strategy, in precedence, whose precondition holds. *)
Definition first_applicable (f : Flags) : option PackageManagerStrategy :=
  List.find (precondition f) precedence.

(** A string without a double quote. *)
Fixpoint quote_free (s : string) : bool :=
  match s with
  | "" => true
  | String c s' => negb (Ascii.eqb c Text.dq_char) && quote_free s'
  end.

(** Raw mode of the front page: a client that does not look like a browser,
    or a [raw] parameter with a truthy value. *)
Definition raw_mode (req : Frontend.Request) : bool :=
  negb (Frontend.isBrowser req) || Frontend.truthy (Frontend.query_raw req).

End Spec.

(** ** Parts of the scripts named for the further properties *)

Module More.
Import Text Shell Installer.

(** The words the argument loop knows. *)
Definition known_option (a : string) : bool :=
  String.eqb a "--version" || String.eqb a "-v" || String.eqb a "--skip-verify"
  || String.eqb a "--help" || String.eqb a "-h".

(** The last three lines of the install script. *)
Definition success_lines : list Event :=
  [Echo ""; LogOk "McpMux installed successfully!"; Echo "Run 'mcpmux' to start."].

Definition usage_line : Event :=
  Echo "Usage: install.sh [--version VERSION] [--skip-verify]".

(** A command that, when it ends the run, does so with a non-zero code. *)
Definition fails_nonzero {A} (m : M A) : Prop :=
  forall st code st', m st = (Exit code, st') -> code <> 0.

(** A command that never ends the run. *)
Definition never_exits {A} (m : M A) : Prop :=
  forall st, exists a st', m st = (Ret a, st').






End More.

(** * Proofs *)

(** ** The front-end *)

Module FrontendProofs.
Import Text Frontend Spec.

Lemma missing_user_agent_not_browser (req : Request) :
  user_agent req = None -> isBrowser req = false.
Proof. intros H. unfold isBrowser. rewrite H. reflexivity. Qed.

Lemma handle_root_raw (req : Request) :
  raw_mode req = true ->
  handle_root req = NewResponse installScript script_headers.
Proof.
  unfold raw_mode, handle_root. intros H.
  destruct (isBrowser req), (truthy (query_raw req)); simpl in *; congruence.
Qed.

Lemma handle_root_landing (req : Request) :
  raw_mode req = false -> handle_root req = Html landingPage.
Proof.
  unfold raw_mode, handle_root. intros H.
  destruct (isBrowser req), (truthy (query_raw req)); simpl in *; congruence.
Qed.

(** C10, as stated, fails: a browser that sends the [raw] parameter with an
    empty value, as in [/?raw] or [/?raw=], has the parameter set and still
    gets the landing page, not the body of [/install.sh]. *)
Lemma raw_parameter_empty_gets_landing_page :
  let req := {| method := GET; path := "/";
                user_agent := Some "Mozilla/5.0";
                query_raw := Some "" |} in
  is_Some (query_raw req)
  /\ app req = Html landingPage
  /\ app req <> app {| method := GET; path := "/install.sh";
                       user_agent := user_agent req;
                       query_raw := query_raw req |}.
Proof.
  cbv zeta. split; [eexists; reflexivity |].
  split; [reflexivity | discriminate].
Qed.

(** C10 (amended): the served script is a constant.  A GET of [/] in raw
    mode, that is from a client whose User-Agent holds none of Mozilla,
    Chrome, Safari, or with a non-empty [raw] query parameter, and a GET of
    [/install.sh] return the same response: the install script as body, with
    Content-Type [text/plain; charset=utf-8].  A request without User-Agent
    is in raw mode and gets the script, never the landing page. *)
Theorem raw_root_equals_install_sh (r1 r2 : Request) :
  method r1 = GET -> path r1 = "/" ->
  method r2 = GET -> path r2 = "/install.sh" ->
  (raw_mode r1 = true ->
     app r1 = app r2
     /\ body_of (app r1) = Some installScript
     /\ body_of (app r2) = Some installScript
     /\ header "Content-Type" (app r1) = Some "text/plain; charset=utf-8"
     /\ header "Content-Type" (app r2) = Some "text/plain; charset=utf-8")
  /\ (user_agent r1 = None ->
        raw_mode r1 = true /\ app r1 <> Html landingPage).
Proof.
  intros M1 P1 M2 P2.
  assert (A2 : app r2 = NewResponse installScript script_headers).
  { unfold app. rewrite M2, P2. reflexivity. }
  assert (A1 : raw_mode r1 = true ->
               app r1 = NewResponse installScript script_headers).
  { intros R. unfold app. rewrite M1, P1. simpl. by apply handle_root_raw. }
  split.
  - intros R. rewrite (A1 R), A2. repeat split; reflexivity.
  - intros U.
    assert (R : raw_mode r1 = true).
    { unfold raw_mode. by rewrite missing_user_agent_not_browser. }
    split; [exact R |]. rewrite (A1 R). discriminate.
Qed.

Lemma raw_root_equals_install_sh_witness :
  app {| method := GET; path := "/"; user_agent := None; query_raw := None |}
  = app {| method := GET; path := "/install.sh";
           user_agent := Some "curl/8.5.0"; query_raw := None |}.
Proof.
  refine (proj1 (proj1 (raw_root_equals_install_sh
    {| method := GET; path := "/"; user_agent := None; query_raw := None |}
    {| method := GET; path := "/install.sh";
       user_agent := Some "curl/8.5.0"; query_raw := None |}
    _ _ _ _) _)); reflexivity.
Defined.

End FrontendProofs.

(** ** The install script *)

Module InstallerProofs.
Import Text Shell Installer Spec.

(** *** Strategy selection *)

Lemma select_strategy_first_applicable (f : Flags) :
  first_applicable f = Some (select_strategy f).
Proof.
  unfold first_applicable, select_strategy, precedence. simpl.
  destruct f as [[] [] [] []]; reflexivity.
Qed.

Lemma main_runs_selected (env : Env) (c : Ctx) (st : State) :
  main env c st = run_strategy env c (select_strategy (probe env st)) st.
Proof. reflexivity. Qed.

(** C1, as stated, fails: with the repository file present, [apt-get] and
    [dnf] both installed, the managed repository is selected, not AptGet. *)
Lemma apt_and_dnf_with_repo_selects_managed :
  let f := {| hasAptRepoConfigured := true; hasAptGet := true;
              hasDnf := true; hasPacman := false |} in
  hasAptGet f = true /\ hasDnf f = true
  /\ select_strategy f = ManagedRepo /\ select_strategy f <> AptGet.
Proof. cbv zeta. repeat split; [reflexivity.. | discriminate]. Qed.

(** C1 (amended): for every combination of the four flags exactly one
    strategy is selected, the first in the precedence ManagedRepo, AptGet,
    Dnf, PacmanAUR, AppImageFallback whose precondition holds; the selection
    is a function of the four flags alone and the dispatch runs that strategy
    and no other.  When [hasAptGet] and [hasDnf] are both true and no
    repository file is present AptGet is selected; when the file is present
    ManagedRepo is. *)
Theorem select_strategy_spec (f : Flags) :
  first_applicable f = Some (select_strategy f)
  /\ (forall s, first_applicable f = Some s -> s = select_strategy f)
  /\ (forall env c st, probe env st = f ->
        main env c st = run_strategy env c (select_strategy f) st)
  /\ (hasAptRepoConfigured f = false -> hasAptGet f = true ->
        hasDnf f = true -> select_strategy f = AptGet)
  /\ (hasAptRepoConfigured f = true -> select_strategy f = ManagedRepo).
Proof.
  pose proof (select_strategy_first_applicable f) as H.
  split; [exact H |].
  split; [intros s Hs; congruence |].
  split; [intros env c st <-; apply main_runs_selected |].
  unfold select_strategy.
  split; [intros -> -> _; reflexivity | intros ->; reflexivity].
Qed.

Lemma select_strategy_spec_witness :
  select_strategy {| hasAptRepoConfigured := false; hasAptGet := true;
                     hasDnf := true; hasPacman := true |} = AptGet.
Proof.
  refine (proj1 (proj2 (proj2 (proj2 (select_strategy_spec
    {| hasAptRepoConfigured := false; hasAptGet := true;
       hasDnf := true; hasPacman := true |})))) _ _ _); reflexivity.
Defined.

(** *** Stepping through the monad *)

Ltac shell_unfold :=
  unfold download, curl_o, curl_get, gpg_verify_files, run, info, ok, warn,
    fail, echo, emit, exit, errexit, write_file, remove_file, chmod_x, get,
    mbind, M_bind, mret, M_ret in *.

(** Case analysis on the condition of an [if] that is in the way. *)
Ltac split_if :=
  repeat match goal with
         | |- context [if ?b then _ else _] => destruct b eqn:?; simpl
         end.

(** The requests in a trace that was extended. *)
Ltac net_simpl :=
  unfold net_calls; simpl; rewrite ?omap_app; simpl; rewrite ?app_nil_r.

Lemma string_length_append (s t : string) :
  String.length (s +:+ t) = (String.length s + String.length t)%nat.
Proof. induction s as [| ch s IH]; simpl; [reflexivity | by rewrite IH]. Qed.

Lemma sig_file_differs (file : string) : file <> file +:+ ".sig".
Proof.
  intros H. apply (f_equal String.length) in H.
  rewrite string_length_append in H. simpl in H. lia.
Qed.

(** *** Signature verification *)

Ltac not_among :=
  let H := fresh in
  intros H;
  repeat (apply elem_of_cons in H as [H | H]; [discriminate H |]);
  by apply elem_of_nil in H.

(** [verify_signature] always returns; it touches no file but the signature
    file next to the artifact, and only adds to the trace, the search-path
    warning not being among what it adds. *)
Lemma verify_signature_returns (env : Env) (c : Ctx) (file : string) (st : State) :
  exists o st',
    verify_signature env c file st = (Ret o, st')
    /\ (forall p, p <> file +:+ ".sig" -> fs st' !! p = fs st !! p)
    /\ exists evs, trace st' = (trace st ++ evs)%list
                   /\ LogWarn path_warning ∉ evs.
Proof.
  unfold verify_signature.
  destruct (SKIP_VERIFY c); [| destruct (command_v env "gpg")];
    shell_unfold; simpl.
  - eexists _, _. split; [reflexivity |]. split; [done |].
    eexists. split; [reflexivity | not_among].
  - destruct (curl env (sig_url_of c file)) as [body | code]; simpl.
    + destruct (gpg_list_keys env); simpl; split_if;
        (eexists _, _; split; [reflexivity |]; simpl; split;
         [ intros p Hp; rewrite lookup_delete_ne, lookup_insert_ne by done; done
         | rewrite <- !app_assoc; eexists; split; [reflexivity | not_among] ]).
    + eexists _, _. split; [reflexivity |]. simpl.
      split; [done | rewrite <- !app_assoc; eexists; split; [reflexivity | not_among]].
  - eexists _, _. split; [reflexivity |]. simpl.
    split; [done | rewrite <- !app_assoc; eexists; split; [reflexivity | not_among]].
Qed.

(** C6: whenever [SKIP_VERIFY] is true, verification returns SkippedByFlag
    after one warning and makes no request: neither the signature nor the
    public key is fetched, and no file changes.  The only request of
    [install_deb], [install_rpm] and [install_appimage] is then the download
    of the artifact itself. *)
Theorem skip_verify_skips (env : Env) (c : Ctx) (st : State) :
  SKIP_VERIFY c = true ->
  (forall file, exists st',
     verify_signature env c file st = (Ret SkippedByFlag, st')
     /\ net_calls st' = net_calls st
     /\ fs st' = fs st
     /\ trace st' = (trace st ++
          [LogWarn "Skipping signature verification (--skip-verify)"])%list)
  /\ net_calls (install_deb env c st).2
     = (net_calls st ++ [release_url c (deb_name c)])%list
  /\ net_calls (install_rpm env c st).2
     = (net_calls st ++ [release_url c (rpm_name c)])%list
  /\ net_calls (install_appimage env c st).2
     = (net_calls st ++ [release_url c (appimage_name c)])%list.
Proof.
  intros H. split; [| split; [| split]].
  - intros file. unfold verify_signature. rewrite H. shell_unfold. simpl.
    eexists. split; [reflexivity |]. simpl.
    split; [by net_simpl | done].
  - unfold install_deb, verify_signature. rewrite H. shell_unfold. simpl.
    destruct (curl env (release_url c (deb_name c))); simpl; split_if;
      by net_simpl.
  - unfold install_rpm, verify_signature. rewrite H. shell_unfold. simpl.
    destruct (curl env (release_url c (rpm_name c))); simpl; split_if;
      by net_simpl.
  - unfold install_appimage, verify_signature. rewrite H. shell_unfold. simpl.
    destruct (curl env (release_url c (appimage_name c))); simpl; split_if;
      by net_simpl.
Qed.

Lemma skip_verify_skips_witness :
  exists st',
    verify_signature Samples.host Samples.ctx_skip deb_tmp (start ∅)
      = (Ret SkippedByFlag, st')
    /\ net_calls st' = []
    /\ fs st' = ∅
    /\ trace st' = [LogWarn "Skipping signature verification (--skip-verify)"].
Proof.
  exact (proj1 (skip_verify_skips Samples.host Samples.ctx_skip (start ∅) eq_refl)
           deb_tmp).
Defined.

(** *** The package installs *)

(** [install_deb] after a download that succeeded: verification returns, the
    install command is started, and its status decides the rest. *)
Lemma install_deb_downloaded (env : Env) (c : Ctx) (st : State) (body : string) :
  curl env (release_url c (deb_name c)) = CurlOk body ->
  exists st1 : State,
    fs st1 !! deb_tmp = Some {| content := body;
                                executable := default false (executable <$> fs st !! deb_tmp) |}
    /\ install_deb env c st =
       if exec env deb_install_cmd =? 0 then
         (Ret tt,
          {| fs := delete deb_tmp (fs st1);
             trace := trace st1 ++
               [LogInfo "Installing..."; Run deb_install_cmd; Echo "";
                LogInfo "Tip: For automatic updates via apt, add the McpMux repository:";
                Echo "  curl -fsSL https://install.mcpmux.com/apt | sudo bash"] |})
       else
         (Exit (exec env deb_install_cmd),
          {| fs := fs st1;
             trace := trace st1 ++ [LogInfo "Installing..."; Run deb_install_cmd] |}).
Proof.
  intros H. unfold install_deb. shell_unfold. simpl. rewrite H. simpl.
  match goal with
  | |- context [verify_signature env c deb_tmp ?s] =>
      destruct (verify_signature_returns env c deb_tmp s)
        as (o & st1 & -> & Hfs & _)
  end.
  exists st1. split.
  - rewrite Hfs by apply sig_file_differs. simpl. rewrite lookup_insert_eq.
    by destruct (fs st !! deb_tmp).
  - simpl. destruct (exec env deb_install_cmd =? 0); simpl;
      by rewrite <- !app_assoc.
Qed.

Lemma install_rpm_downloaded (env : Env) (c : Ctx) (st : State) (body : string) :
  curl env (release_url c (rpm_name c)) = CurlOk body ->
  exists st1 : State,
    fs st1 !! rpm_tmp = Some {| content := body;
                                executable := default false (executable <$> fs st !! rpm_tmp) |}
    /\ install_rpm env c st =
       if exec env rpm_install_cmd =? 0 then
         (Ret tt,
          {| fs := delete rpm_tmp (fs st1);
             trace := trace st1 ++ [LogInfo "Installing..."; Run rpm_install_cmd] |})
       else
         (Exit (exec env rpm_install_cmd),
          {| fs := fs st1;
             trace := trace st1 ++ [LogInfo "Installing..."; Run rpm_install_cmd] |}).
Proof.
  intros H. unfold install_rpm. shell_unfold. simpl. rewrite H. simpl.
  match goal with
  | |- context [verify_signature env c rpm_tmp ?s] =>
      destruct (verify_signature_returns env c rpm_tmp s)
        as (o & st1 & -> & Hfs & _)
  end.
  exists st1. split.
  - rewrite Hfs by apply sig_file_differs. simpl. rewrite lookup_insert_eq.
    by destruct (fs st !! rpm_tmp).
  - simpl. destruct (exec env rpm_install_cmd =? 0); simpl;
      by rewrite <- !app_assoc.
Qed.

(** [install_appimage] after a download that succeeded: verification
    returns, the file is made executable, the function returns, and the
    search-path warning is printed exactly when [grep] finds no entry. *)
Lemma install_appimage_downloaded (env : Env) (c : Ctx) (st : State) (body : string) :
  curl env (release_url c (appimage_name c)) = CurlOk body ->
  exists st' : State,
    install_appimage env c st = (Ret tt, st')
    /\ fs st' !! install_path env = Some {| content := body; executable := true |}
    /\ (LogWarn path_warning ∉ trace st ->
        LogWarn path_warning ∈ trace st' <-> in_search_path env = false).
Proof.
  intros H. unfold install_appimage. shell_unfold. simpl. rewrite H. simpl.
  match goal with
  | |- context [verify_signature env c (install_path env) ?s] =>
      destruct (verify_signature_returns env c (install_path env) s)
        as (o & st1 & -> & Hfs & evs & Htr & Hevs)
  end.
  simpl in Htr.
  assert (Hlook : forall m : gmap string File,
             m !! install_path env = fs st1 !! install_path env ->
             alter (fun f => {| content := content f; executable := true |})
               (install_path env) m !! install_path env
             = Some {| content := body; executable := true |}).
  { intros m Hm. rewrite lookup_alter_eq, Hm, Hfs by apply sig_file_differs.
    simpl. by rewrite lookup_insert_eq. }
  destruct (in_search_path env); simpl;
    (eexists; split; [reflexivity |]; simpl; split; [by apply Hlook |]);
    intros Hst; rewrite Htr; split; try done.
  - rewrite !elem_of_app, !elem_of_cons, elem_of_nil.
    intros Hin. decompose [or] Hin; (congruence || contradiction).
  - intros _. rewrite !elem_of_app, !elem_of_cons. simpl. tauto.
Qed.

Lemma verify_signature_outcome (env : Env) (c : Ctx) (file : string) (st : State) :
  (verify_signature env c file st).1 = Ret (expected_outcome env c file st).
Proof.
  unfold verify_signature, expected_outcome.
  destruct (SKIP_VERIFY c); [| destruct (command_v env "gpg")];
    shell_unfold; simpl; try reflexivity.
  destruct (curl env (sig_url_of c file)) as [body | code]; simpl;
    [| reflexivity].
  destruct (gpg_list_keys env); simpl;
    rewrite lookup_insert_eq, lookup_insert_ne
      by (symmetry; apply sig_file_differs);
    simpl;
    (destruct (fs st !! file) as [f |]; simpl;
     [destruct (gpg_verify env body (content f)) |]; reflexivity).
Qed.

(** C2: for every artifact and either value of the skip flag,
    [verify_signature] returns one of the five outcomes and never ends the
    run, whatever the signature download, the key import and [gpg --verify]
    answer; each caller goes on to its install step: [install_deb] and
    [install_rpm] start the package manager, [install_appimage] makes the
    file executable. *)
Theorem verify_signature_never_fatal (env : Env) (c : Ctx) :
  (forall file st,
     exists st', verify_signature env c file st
                 = (Ret (expected_outcome env c file st), st'))
  /\ (forall st body,
        curl env (release_url c (deb_name c)) = CurlOk body ->
        Run deb_install_cmd ∈ trace (install_deb env c st).2)
  /\ (forall st body,
        curl env (release_url c (rpm_name c)) = CurlOk body ->
        Run rpm_install_cmd ∈ trace (install_rpm env c st).2)
  /\ (forall st body,
        curl env (release_url c (appimage_name c)) = CurlOk body ->
        exists st', install_appimage env c st = (Ret tt, st')
                    /\ executable <$> fs st' !! install_path env = Some true).
Proof.
  split; [| split; [| split]].
  - intros file st.
    pose proof (verify_signature_outcome env c file st) as H.
    destruct (verify_signature env c file st) as [r st']. simpl in H.
    subst r. by exists st'.
  - intros st body H.
    destruct (install_deb_downloaded env c st body H) as (st1 & _ & ->).
    destruct (exec env deb_install_cmd =? 0); simpl;
      rewrite elem_of_app, !elem_of_cons; tauto.
  - intros st body H.
    destruct (install_rpm_downloaded env c st body H) as (st1 & _ & ->).
    destruct (exec env rpm_install_cmd =? 0); simpl;
      rewrite elem_of_app, !elem_of_cons; tauto.
  - intros st body H.
    destruct (install_appimage_downloaded env c st body H) as (st' & E & F & _).
    exists st'. split; [exact E |]. by rewrite F.
Qed.

Lemma verify_signature_never_fatal_witness :
  Run deb_install_cmd ∈ trace (install_deb Samples.host Samples.ctx (start ∅)).2.
Proof.
  exact (proj1 (proj2 (verify_signature_never_fatal Samples.host Samples.ctx))
           (start ∅) "payload" eq_refl).
Defined.

(** *** Removal of the downloaded package *)

(** C5, as stated, fails: when [apt-get install] fails, here with status
    100, [set -e] ends the script at that command, before [rm -f], and the
    downloaded package stays in [/tmp]. *)
Lemma failed_apt_install_leaves_package :
  let env := Samples.with_failing deb_install_cmd 100 Samples.host in
  let r := install_deb env Samples.ctx (start ∅) in
  r.1 = Exit 100
  /\ last (trace r.2) = Some (Run deb_install_cmd)
  /\ fs r.2 !! deb_tmp = Some {| content := "payload"; executable := false |}.
Proof. cbv zeta. repeat split; vm_compute; reflexivity. Qed.

(** C5 (amended): in the AptGet and Dnf strategies, once the package is
    downloaded, the temporary file is removed when the install command of the
    package manager succeeds.  When that command fails the script ends at
    once with the command's status and the downloaded file stays where it
    is. *)
Theorem package_removed_after_successful_install
    (env : Env) (c : Ctx) (st : State) (body : string) :
  (curl env (release_url c (deb_name c)) = CurlOk body ->
     (exec env deb_install_cmd = 0 ->
        exists st', install_deb env c st = (Ret tt, st')
                    /\ fs st' !! deb_tmp = None)
     /\ (exec env deb_install_cmd <> 0 ->
           exists st', install_deb env c st = (Exit (exec env deb_install_cmd), st')
                       /\ content <$> fs st' !! deb_tmp = Some body))
  /\ (curl env (release_url c (rpm_name c)) = CurlOk body ->
        (exec env rpm_install_cmd = 0 ->
           exists st', install_rpm env c st = (Ret tt, st')
                       /\ fs st' !! rpm_tmp = None)
        /\ (exec env rpm_install_cmd <> 0 ->
              exists st', install_rpm env c st = (Exit (exec env rpm_install_cmd), st')
                          /\ content <$> fs st' !! rpm_tmp = Some body)).
Proof.
  split; intros H.
  - destruct (install_deb_downloaded env c st body H) as (st1 & F & ->).
    split; intros E.
    + rewrite E. simpl. eexists. split; [reflexivity |]. simpl.
      apply lookup_delete_eq.
    + apply Z.eqb_neq in E. rewrite E. eexists. split; [reflexivity |].
      simpl. by rewrite F.
  - destruct (install_rpm_downloaded env c st body H) as (st1 & F & ->).
    split; intros E.
    + rewrite E. simpl. eexists. split; [reflexivity |]. simpl.
      apply lookup_delete_eq.
    + apply Z.eqb_neq in E. rewrite E. eexists. split; [reflexivity |].
      simpl. by rewrite F.
Qed.

Lemma package_removed_after_successful_install_witness :
  exists st', install_deb Samples.host Samples.ctx (start ∅) = (Ret tt, st')
              /\ fs st' !! deb_tmp = None.
Proof.
  exact (proj1 (proj1 (package_removed_after_successful_install
                         Samples.host Samples.ctx (start ∅) "payload")
                      eq_refl) eq_refl).
Defined.

(** *** The AUR helpers *)

(** C7: in the PacmanAUR strategy [yay] is used when it is present, whether
    or not [paru] is; [paru] is used when only it is present; with neither,
    the remediation instructions are printed and the run ends with exit code
    1.  In no case is anything downloaded or any file written: the dispatch
    runs [install_pacman] alone and does not go on to the AppImage. *)
Theorem install_pacman_prefers_yay (env : Env) (st : State) :
  (command_v env "yay" = true ->
     install_pacman env st =
       (if exec env yay_cmd =? 0 then Ret tt else Exit (exec env yay_cmd),
        {| fs := fs st;
           trace := trace st ++ [LogInfo "Installing from AUR via yay..."; Run yay_cmd] |}))
  /\ (command_v env "yay" = false -> command_v env "paru" = true ->
        install_pacman env st =
          (if exec env paru_cmd =? 0 then Ret tt else Exit (exec env paru_cmd),
           {| fs := fs st;
              trace := trace st ++ [LogInfo "Installing from AUR via paru..."; Run paru_cmd] |}))
  /\ (command_v env "yay" = false -> command_v env "paru" = false ->
        install_pacman env st =
          (Exit 1,
           {| fs := fs st;
              trace := trace st ++
                [LogWarn "No AUR helper found (yay or paru).";
                 Echo "";
                 Echo "Option 1: Install an AUR helper first:";
                 Echo "  sudo pacman -S --needed git base-devel";
                 Echo "  git clone https://aur.archlinux.org/yay-bin.git && cd yay-bin && makepkg -si";
                 Echo "  yay -S mcpmux-bin";
                 Echo "";
                 Echo "Option 2: Download the AppImage:";
                 Echo "  https://github.com/mcpmux/mcp-mux/releases/latest"] |}))
  /\ (forall c, select_strategy (probe env st) = PacmanAUR ->
        main env c st = install_pacman env st
        /\ fs (install_pacman env st).2 = fs st
        /\ net_calls (install_pacman env st).2 = net_calls st).
Proof.
  split; [| split; [| split]].
  - intros Y. unfold install_pacman, select_helper. rewrite Y.
    shell_unfold. simpl. destruct (exec env yay_cmd =? 0); simpl;
      by rewrite <- !app_assoc.
  - intros Y P. unfold install_pacman, select_helper. rewrite Y, P.
    shell_unfold. simpl. destruct (exec env paru_cmd =? 0); simpl;
      by rewrite <- !app_assoc.
  - intros Y P. unfold install_pacman, select_helper. rewrite Y, P.
    shell_unfold. simpl. by rewrite <- !app_assoc.
  - intros c S. split; [unfold main; shell_unfold; simpl; by rewrite S |].
    unfold install_pacman, select_helper, net_calls.
    destruct (command_v env "yay"); [| destruct (command_v env "paru")];
      shell_unfold; simpl; split_if; simpl; split; try reflexivity;
      rewrite ?omap_app; simpl; by rewrite ?app_nil_r.
Qed.

Lemma install_pacman_prefers_yay_witness :
  install_pacman Samples.host (start ∅) =
    (Ret tt, {| fs := ∅;
                trace := [LogInfo "Installing from AUR via yay..."; Run yay_cmd] |}).
Proof.
  exact (proj1 (install_pacman_prefers_yay Samples.host (start ∅)) eq_refl).
Defined.

(** *** The AppImage and the search path *)



(** C8 is not met by the code: [grep -qx] reads the install directory as a
    regular expression, in which the dot of [.local] stands for any
    character.  With HOME [/home/u] and the search path
    [/home/u/xlocal/bin:/usr/bin] the install directory is no entry of the
    search path, the run succeeds, the file is executable, and no warning is
    printed. *)
Theorem lookalike_entry_hides_path_warning :
  let env := Samples.with_commands ["curl"]
               (Samples.with_path "/home/u/xlocal/bin:/usr/bin" Samples.host) in
  let r := install_sh env [] (start ∅) in
  install_dir env = "/home/u/.local/bin"
  /\ path_entries env = ["/home/u/xlocal/bin"; "/usr/bin"]
  /\ ~ In (install_dir env) (path_entries env)
  /\ r.1 = Ret tt
  /\ fs r.2 !! install_path env = Some {| content := "payload"; executable := true |}
  /\ trace r.2 =
       [LogInfo "Detected architecture: amd64";
        LogInfo "Fetching latest release...";
        Net "https://api.github.com/repos/mcpmux/mcp-mux/releases/latest";
        LogInfo "Installing McpMux v0.0.12";
        LogInfo "No supported package manager found — installing AppImage...";
        LogInfo "Downloading AppImage...";
        Net "https://github.com/mcpmux/mcp-mux/releases/download/v0.0.12/McpMux_0.0.12_amd64.AppImage";
        LogWarn "gpg not found — skipping signature verification";
        LogWarn "Install gnupg and re-run, or use --skip-verify to suppress this warning";
        LogOk "Installed to /home/u/.local/bin/McpMux.AppImage";
        Echo "";
        LogOk "McpMux installed successfully!";
        Echo "Run 'mcpmux' to start."].
Proof.
  cbv zeta. split; [reflexivity |]. split; [reflexivity |].
  split.
  { intros [H | [H | []]]; discriminate H. }
  repeat split; vm_compute; reflexivity.
Qed.

(** *** Architecture detection *)

(** The argument loop makes no request and writes no file, and when it
    returns it has printed nothing. *)
Lemma parse_args_pure (args : list string) :
  forall version skip st,
    fs (parse_args args version skip st).2 = fs st
    /\ net_calls (parse_args args version skip st).2 = net_calls st
    /\ (forall x, (parse_args args version skip st).1 = Ret x ->
          (parse_args args version skip st).2 = st).
Proof.
  cut ((forall version skip st,
          fs (parse_args args version skip st).2 = fs st
          /\ net_calls (parse_args args version skip st).2 = net_calls st
          /\ (forall x, (parse_args args version skip st).1 = Ret x ->
                (parse_args args version skip st).2 = st))
       /\ (forall a version skip st,
             fs (parse_args (a :: args) version skip st).2 = fs st
             /\ net_calls (parse_args (a :: args) version skip st).2 = net_calls st
             /\ (forall x, (parse_args (a :: args) version skip st).1 = Ret x ->
                   (parse_args (a :: args) version skip st).2 = st))).
  { intros [H _]. exact H. }
  induction args as [| b args [IH1 IH2]].
  - split; [intros; simpl; by repeat split |].
    intros a version skip st. simpl.
    destruct (String.eqb a "--version" || String.eqb a "-v"); simpl.
    { shell_unfold. simpl. net_simpl. by repeat split. }
    destruct (String.eqb a "--skip-verify"); simpl; [by repeat split |].
    destruct (String.eqb a "--help" || String.eqb a "-h"); simpl;
      shell_unfold; simpl; net_simpl; by repeat split.
  - split; [apply IH2 |].
    intros a version skip st. simpl.
    destruct (String.eqb a "--version" || String.eqb a "-v"); [apply IH1 |].
    destruct (String.eqb a "--skip-verify"); [apply IH2 |].
    destruct (String.eqb a "--help" || String.eqb a "-h"); simpl;
      shell_unfold; simpl; net_simpl; by repeat split.
Qed.

(** C3: [x86_64] resolves to [amd64] and [aarch64] to [arm64]; any other
    machine identifier ends the run with the message "Unsupported
    architecture" and exit code 1.  A run that reaches the detection (its
    arguments were accepted and [curl] is installed) has then made no
    request at all, and whatever the arguments no request is made and no file
    is written on such a machine. *)
Theorem unsupported_architecture_is_fatal (env : Env) :
  (uname_m env = "x86_64" -> forall st, detect_arch env st = (Ret "amd64", st))
  /\ (uname_m env = "aarch64" -> forall st, detect_arch env st = (Ret "arm64", st))
  /\ (uname_m env <> "x86_64" -> uname_m env <> "aarch64" ->
        (forall st,
           detect_arch env st =
             (Exit 1,
              {| fs := fs st;
                 trace := trace st ++
                   [LogFail ("Unsupported architecture: " +:+ uname_m env)] |}))
        /\ (forall args files,
              net_calls (install_sh env args (start files)).2 = []
              /\ fs (install_sh env args (start files)).2 = files
              /\ (forall version skip,
                    (parse_args args "" false (start files)).1 = Ret (version, skip) ->
                    command_v env "curl" = true ->
                    install_sh env args (start files) =
                      (Exit 1,
                       {| fs := files;
                          trace := [LogFail ("Unsupported architecture: "
                                             +:+ uname_m env)] |})))).
Proof.
  split; [| split].
  - intros H st. unfold detect_arch. by rewrite H.
  - intros H st. unfold detect_arch. by rewrite H.
  - intros N1 N2.
    apply String.eqb_neq in N1. apply String.eqb_neq in N2.
    assert (D : forall st,
      detect_arch env st =
        (Exit 1, {| fs := fs st;
                    trace := trace st ++
                      [LogFail ("Unsupported architecture: " +:+ uname_m env)] |})).
    { intros st. unfold detect_arch. rewrite N1, N2. reflexivity. }
    split; [exact D |].
    intros args files.
    pose proof (parse_args_pure args "" false (start files)) as (Pfs & Pnet & Pret).
    assert (E : install_sh env args (start files) =
      match parse_args args "" false (start files) with
      | (Ret _, st0) =>
          if command_v env "curl" then
            (Exit 1, {| fs := fs st0;
                        trace := trace st0 ++
                          [LogFail ("Unsupported architecture: " +:+ uname_m env)] |})
          else
            (Exit 1, {| fs := fs st0;
                        trace := trace st0 ++
                          [LogFail "'curl' is required but not installed."] |})
      | (Exit code, st0) => (Exit code, st0)
      end).
    { unfold install_sh, need, mbind, M_bind.
      destruct (parse_args args "" false (start files))
        as [[[version skip] | code] st0]; [| reflexivity].
      destruct (command_v env "curl"); [| reflexivity].
      unfold mret, M_ret. by rewrite D. }
    rewrite E. clear E.
    destruct (parse_args args "" false (start files))
      as [[[version skip] | code] st0]; simpl in *.
    + specialize (Pret _ eq_refl). subst st0.
      destruct (command_v env "curl"); simpl;
        (split; [reflexivity | split; [reflexivity |]]).
      * intros v k _ _. reflexivity.
      * intros; discriminate.
    + split; [done | split; [done | intros; discriminate]].
Qed.

Lemma unsupported_architecture_is_fatal_witness :
  install_sh (Samples.with_machine "riscv64" Samples.host) ["--skip-verify"] (start ∅)
  = (Exit 1, {| fs := ∅;
                trace := [LogFail "Unsupported architecture: riscv64"] |}).
Proof.
  refine (proj2 (proj2 (proj2 (proj2 (proj2 (unsupported_architecture_is_fatal
    (Samples.with_machine "riscv64" Samples.host))) _ _)
    ["--skip-verify"] ∅)) "" true eq_refl eq_refl); discriminate.
Defined.

(** *** Version resolution *)








(** A tag that is empty, or that does not start with v, is not detected: the
    line passes through [sed] unchanged and becomes the version. *)
Example empty_tag_becomes_the_line :
  (resolve_version
     (Samples.with_latest (CurlOk (Samples.latest_json "")) Samples.host)
     "" (start ∅)).1
  = Ret (Samples.latest_json "").
Proof. vm_compute. reflexivity. Qed.

(** A request that fails ends the run with exit code 1: [grep] then finds
    nothing. *)
Lemma resolve_version_curl_failure (env : Env) (st : State) (code : positive) :
  curl env latest_url = CurlErr code ->
  (resolve_version env "" st).1 = Exit 1.
Proof.
  intros H. unfold resolve_version. shell_unfold. simpl. rewrite H. simpl.
  by destruct code.
Qed.



End InstallerProofs.

(** ** The APT setup script *)

Module AptSetupProofs.
Import Text Shell AptSetup.

Ltac setup_unfold :=
  unfold apt_setup, gpg_dearmor_to, curl_get, run, info, ok, fail, echo, emit,
    exit, errexit, write_file, get, mbind, M_bind, mret, M_ret in *.

Ltac split_setup_if :=
  repeat match goal with
         | |- context [if ?b then _ else _] => destruct b eqn:?; simpl
         end.

(** The files a run leaves are [files_after_setup] of the files it found. *)
Lemma apt_setup_files (env : Env) (st : State) :
  fs (apt_setup env st).2 = files_after_setup env (fs st).
Proof.
  unfold files_after_setup, written. setup_unfold. simpl.
  destruct (id_u env =? 0); simpl; [| reflexivity].
  destruct (curl env key_url) as [armored | code]; simpl.
  - destruct (bool_decide (is_Some (fs st !! keyring_path)) && negb (gpg_overwrite env));
      simpl; [reflexivity |].
    destruct (gpg_dearmor env armored) as [key |]; simpl; [| reflexivity].
    split_setup_if; reflexivity.
  - destruct (bool_decide (is_Some (fs st !! keyring_path)) && negb (gpg_overwrite env));
      simpl; [reflexivity |].
    destruct (gpg_dearmor env "") as [key |]; simpl; reflexivity.
Qed.

Lemma paths_differ : keyring_path <> list_path.
Proof. discriminate. Qed.








End AptSetupProofs.

(** * Further properties of the code *)

(** ** Substrings *)

Module TextFacts.
Import Text.

Lemma append_cons (ch : ascii) (a b : string) :
  String ch a +:+ b = String ch (a +:+ b).
Proof. reflexivity. Qed.

Lemma append_assoc (a b c : string) : (a +:+ b) +:+ c = a +:+ b +:+ c.
Proof.
  induction a as [| ch a IH]; [reflexivity |].
  rewrite !append_cons. by f_equal.
Qed.

Lemma append_empty_r (a : string) : a +:+ "" = a.
Proof.
  induction a as [| ch a IH]; [reflexivity |].
  rewrite append_cons. by f_equal.
Qed.

Lemma prefix_spec (p s : string) :
  String.prefix p s = true <-> exists post, s = p +:+ post.
Proof.
  revert s. induction p as [| a p IH]; intros s.
  - destruct s; split; eauto.
  - destruct s as [| b s].
    + split; [discriminate | intros [post [=]]].
    + change (String.prefix (String a p) (String b s))
        with (if ascii_dec a b then String.prefix p s else false).
      destruct (ascii_dec a b) as [-> | N].
      * rewrite IH. split; intros [post H]; exists post.
        -- rewrite append_cons. by f_equal.
        -- rewrite append_cons in H. by injection H.
      * split; [discriminate |].
        intros [post H]. rewrite append_cons in H. injection H as H _.
        by destruct N.
Qed.

(** [includes] finds exactly the substrings. *)
Lemma includes_spec (s sub : string) :
  includes s sub = true <-> exists pre post, s = pre +:+ sub +:+ post.
Proof.
  induction s as [| ch s IH].
  - change (includes "" sub) with (String.prefix sub "" || false).
    rewrite orb_false_r, prefix_spec. split.
    + intros [post H]. by exists "", post.
    + intros ([| c pre] & post & H); [by exists post | discriminate].
  - change (includes (String ch s) sub)
      with (String.prefix sub (String ch s) || includes s sub).
    rewrite orb_true_iff, IH, prefix_spec. split.
    + intros [[post H] | (pre & post & H)].
      * by exists "", post.
      * exists (String ch pre), post. rewrite append_cons. by f_equal.
    + intros ([| c pre] & post & H).
      * left. by exists post.
      * right. rewrite append_cons in H. injection H as _ H. by exists pre, post.
Qed.

End TextFacts.

(** ** The argument loop and the first steps of the install script *)

Module InstallerStart.
Import Text Shell Installer Spec More InstallerProofs.

(** Induction over the argument list two words at a time, as the loop
    consumes them. *)
Lemma args_pair_ind (P : list string -> Prop) :
  P [] -> (forall a, P [a]) ->
  (forall a b rest, P rest -> P (b :: rest) -> P (a :: b :: rest)) ->
  forall args, P args.
Proof.
  intros H0 H1 H2 args.
  cut (P args /\ forall a, P (a :: args)); [tauto |].
  induction args as [| b rest [IH1 IH2]]; split; auto.
Qed.

(** A prefix of the arguments that is accepted hands its result to the
    rest. *)
Lemma parse_args_prefix (args1 : list string) :
  forall args2 version skip st v k,
    (parse_args args1 version skip st).1 = Ret (v, k) ->
    parse_args (args1 ++ args2) version skip st = parse_args args2 v k st.
Proof.
  induction args1 as [| a | a b rest IH1 IH2] using args_pair_ind;
    intros args2 version skip st v k.
  - simpl. intros [= -> ->]. reflexivity.
  - simpl.
    destruct (String.eqb a "--version" || String.eqb a "-v"); [discriminate |].
    destruct (String.eqb a "--skip-verify").
    { simpl. intros [= -> ->]. reflexivity. }
    destruct (String.eqb a "--help" || String.eqb a "-h"); discriminate.
  - change ((a :: b :: rest) ++ args2)%list with (a :: b :: (rest ++ args2))%list.
    simpl.
    destruct (String.eqb a "--version" || String.eqb a "-v"); [apply IH1 |].
    destruct (String.eqb a "--skip-verify"); [apply (IH2 args2) |].
    destruct (String.eqb a "--help" || String.eqb a "-h"); discriminate.
Qed.

(** X1: what the argument loop returns comes from the arguments: the
    version is the initial one or, verbatim, one of the words; a skip flag
    that is set is never cleared; and it is set only by a [--skip-verify]
    among the words. *)
Theorem parse_args_origin (args : list string) :
  forall version skip st v k,
    (parse_args args version skip st).1 = Ret (v, k) ->
    (v = version \/ In v args)
    /\ (skip = true -> k = true)
    /\ (k = true -> skip = true \/ In "--skip-verify" args).
Proof.
  induction args as [| a | a b rest IH1 IH2] using args_pair_ind;
    intros version skip st v k.
  - simpl. intros [= -> ->]. tauto.
  - simpl.
    destruct (String.eqb a "--version" || String.eqb a "-v"); [discriminate |].
    destruct (String.eqb a "--skip-verify") eqn:E.
    { simpl. intros [= -> <-]. apply String.eqb_eq in E. subst a. tauto. }
    destruct (String.eqb a "--help" || String.eqb a "-h"); discriminate.
  - simpl.
    destruct (String.eqb a "--version" || String.eqb a "-v").
    { intros H. destruct (IH1 _ _ _ _ _ H) as (Hv & Hk1 & Hk2).
      split; [| split]; [| exact Hk1 |].
      - destruct Hv as [-> | Hv]; [right; right; by left | right; right; by right].
      - intros Hk. destruct (Hk2 Hk) as [? | ?]; [by left | right; right; by right]. }
    destruct (String.eqb a "--skip-verify") eqn:E.
    { intros H. destruct (IH2 _ _ _ _ _ H) as (Hv & Hk1 & Hk2).
      apply String.eqb_eq in E. subst a.
      split; [| split].
      - destruct Hv as [-> | Hv]; [by left | right; by right].
      - intros _. by apply Hk1.
      - intros _. right. by left. }
    destruct (String.eqb a "--help" || String.eqb a "-h"); discriminate.
Qed.

Lemma parse_args_origin_witness :
  ("0.0.12" = "" \/ In "0.0.12" ["--skip-verify"; "-v"; "0.0.12"])
  /\ (false = true -> true = true)
  /\ (true = true -> false = true \/ In "--skip-verify" ["--skip-verify"; "-v"; "0.0.12"]).
Proof.
  exact (parse_args_origin ["--skip-verify"; "-v"; "0.0.12"] "" false (start ∅)
           "0.0.12" true eq_refl).
Defined.

(** X2: after an accepted prefix, the word that follows [--version] or [-v]
    becomes the version whatever it is, also when it reads like an option,
    and the loop goes on behind it; a later version replaces an earlier
    one. *)
Theorem version_flag_takes_next_word
    (pre post : list string) (flag w : string) (st : State) (v : string) (k : bool) :
  (parse_args pre "" false st).1 = Ret (v, k) ->
  flag = "--version" \/ flag = "-v" ->
  parse_args (pre ++ flag :: w :: post) "" false st = parse_args post w k st.
Proof.
  intros H F. rewrite (parse_args_prefix pre _ _ _ _ _ _ H).
  destruct F as [-> | ->]; reflexivity.
Qed.

Lemma version_flag_takes_next_word_witness :
  parse_args (["--version"; "1.0"] ++ "-v" :: "--help" :: ["--skip-verify"])
    "" false (start ∅)
  = (Ret ("--help", true), start ∅).
Proof.
  exact (version_flag_takes_next_word ["--version"; "1.0"] ["--skip-verify"]
           "-v" "--help" (start ∅) "1.0" false eq_refl (or_intror eq_refl)).
Defined.

(** The script stops where the argument loop stops. *)
Lemma install_sh_parse_exit (env : Env) (args : list string) (st st' : State) (code : Z) :
  parse_args args "" false st = (Exit code, st') ->
  install_sh env args st = (Exit code, st').
Proof. intros H. unfold install_sh, mbind, M_bind. by rewrite H. Qed.

(** X3: [--help] or [-h] behind an accepted prefix prints the usage line and
    ends the run with exit code 0 on any host: nothing is probed, requested
    or written, and what follows the word is not read. *)
Theorem help_exits_zero
    (env : Env) (pre post : list string) (flag : string)
    (files : gmap string File) (v : string) (k : bool) :
  (parse_args pre "" false (start files)).1 = Ret (v, k) ->
  flag = "--help" \/ flag = "-h" ->
  install_sh env (pre ++ flag :: post) (start files)
  = (Exit 0,
     {| fs := files;
        trace := [Echo "Usage: install.sh [--version VERSION] [--skip-verify]"] |}).
Proof.
  intros H F. apply install_sh_parse_exit.
  rewrite (parse_args_prefix pre _ _ _ _ _ _ H).
  destruct F as [-> | ->]; reflexivity.
Qed.

Lemma help_exits_zero_witness :
  install_sh (Samples.with_machine "riscv64" (Samples.with_commands [] Samples.host))
    (["--skip-verify"] ++ "-h" :: ["--bogus"]) (start ∅)
  = (Exit 0,
     {| fs := ∅;
        trace := [Echo "Usage: install.sh [--version VERSION] [--skip-verify]"] |}).
Proof.
  exact (help_exits_zero _ ["--skip-verify"] ["--bogus"] "-h" ∅ "" true
           eq_refl (or_intror eq_refl)).
Defined.

(** X4: a word behind an accepted prefix that is none of the five options is
    fatal: the run ends with exit code 1 and the message names the word;
    nothing is probed, requested or written.  [--version] or [-v] as the
    last word is fatal too, with the shell's own message. *)
Theorem unknown_option_is_fatal
    (env : Env) (pre post : list string) (a : string)
    (files : gmap string File) (v : string) (k : bool) :
  (parse_args pre "" false (start files)).1 = Ret (v, k) ->
  (known_option a = false ->
     install_sh env (pre ++ a :: post) (start files)
     = (Exit 1, {| fs := files; trace := [LogFail ("Unknown option: " +:+ a)] |}))
  /\ (a = "--version" \/ a = "-v" ->
        install_sh env (pre ++ [a]) (start files)
        = (Exit 1, {| fs := files; trace := [ShellErr "$2: unbound variable"] |})).
Proof.
  intros H. split.
  - intros K. apply install_sh_parse_exit.
    rewrite (parse_args_prefix pre _ _ _ _ _ _ H).
    unfold known_option in K.
    apply orb_false_iff in K as [K Kh']. apply orb_false_iff in K as [K Kh].
    apply orb_false_iff in K as [K Ks]. apply orb_false_iff in K as [Kv Kv'].
    simpl. rewrite Kv, Kv', Ks, Kh, Kh'. reflexivity.
  - intros F. apply install_sh_parse_exit.
    rewrite (parse_args_prefix pre _ _ _ _ _ _ H).
    destruct F as [-> | ->]; reflexivity.
Qed.

Lemma unknown_option_is_fatal_witness :
  install_sh Samples.host (["-v"; "0.0.12"] ++ "--verbose" :: []) (start ∅)
  = (Exit 1, {| fs := ∅; trace := [LogFail "Unknown option: --verbose"] |}).
Proof.
  exact (proj1 (unknown_option_is_fatal Samples.host ["-v"; "0.0.12"] []
                  "--verbose" ∅ "0.0.12" false eq_refl) eq_refl).
Defined.

(** X5: when the arguments are accepted and [curl] is not installed, the run
    ends with exit code 1 and the message that curl is required, before the
    architecture is looked at: nothing is requested or written, on any
    machine. *)
Theorem missing_curl_is_fatal
    (env : Env) (args : list string) (files : gmap string File)
    (v : string) (k : bool) :
  (parse_args args "" false (start files)).1 = Ret (v, k) ->
  command_v env "curl" = false ->
  install_sh env args (start files)
  = (Exit 1,
     {| fs := files;
        trace := [LogFail "'curl' is required but not installed."] |}).
Proof.
  intros H C.
  pose proof (parse_args_pure args "" false (start files)) as (_ & _ & P).
  destruct (parse_args args "" false (start files)) as [r st0] eqn:E.
  simpl in H, P. subst r. specialize (P _ eq_refl). subst st0.
  unfold install_sh, need, mbind, M_bind. rewrite E, C. reflexivity.
Qed.

Lemma missing_curl_is_fatal_witness :
  install_sh (Samples.with_machine "riscv64" (Samples.with_commands ["gpg"] Samples.host))
    ["--skip-verify"] (start ∅)
  = (Exit 1,
     {| fs := ∅; trace := [LogFail "'curl' is required but not installed."] |}).
Proof.
  exact (missing_curl_is_fatal
           (Samples.with_machine "riscv64" (Samples.with_commands ["gpg"] Samples.host))
           ["--skip-verify"] ∅ "" true eq_refl eq_refl).
Defined.

End InstallerStart.

(** ** Version resolution and the way to the dispatch *)

Module InstallerResolve.
Import Text Shell Installer Spec More InstallerProofs TextFacts.

Lemma until_quote_sound (s t : string) :
  until_quote s = Some t ->
  quote_free t = true /\ exists post, s = t +:+ dq +:+ post.
Proof.
  revert t. induction s as [| ch s IH]; simpl; intros t; [discriminate |].
  destruct (Ascii.eqb ch dq_char) eqn:E.
  - intros [= <-]. apply Ascii.eqb_eq in E. subst ch.
    split; [reflexivity | by exists s].
  - destruct (until_quote s) as [u |]; simpl; [| discriminate].
    intros [= <-]. destruct (IH u eq_refl) as (Q & post & ->).
    split; [simpl; by rewrite E, Q | by exists post].
Qed.

(** What [sed] captured stands in the line between quote-v and a quote, and
    holds no quote. *)
Lemma sed_capture_sound (s cap : string) :
  sed_capture s = Some cap ->
  quote_free cap = true
  /\ exists pre post, s = pre +:+ dq +:+ "v" +:+ cap +:+ dq +:+ post.
Proof.
  revert cap. induction s as [| ch s IH]; simpl; intros cap; [discriminate |].
  destruct (sed_capture s) as [c' |].
  - intros [= <-]. destruct (IH c' eq_refl) as (Q & pre & post & ->).
    split; [exact Q | by exists (String ch pre), post].
  - destruct (Ascii.eqb ch dq_char) eqn:E; [| discriminate].
    apply Ascii.eqb_eq in E. subst ch.
    destruct s as [| c2 s2]; [discriminate |].
    destruct c2 as [[] [] [] [] [] [] [] []]; try discriminate.
    intros H. destruct (until_quote_sound _ _ H) as (Q & post & ->).
    split; [exact Q | by exists "", post].
Qed.

(** Without quote-v in the line nothing is captured. *)
Lemma sed_capture_none (s : string) :
  includes s (dq +:+ "v") = false -> sed_capture s = None.
Proof.
  induction s as [| ch s IH]; [reflexivity |].
  change (includes (String ch s) (dq +:+ "v"))
    with (String.prefix (dq +:+ "v") (String ch s) || includes s (dq +:+ "v")).
  intros [P I]%orb_false_iff. simpl. rewrite (IH I).
  destruct (Ascii.eqb ch dq_char) eqn:E; [| reflexivity].
  apply Ascii.eqb_eq in E. subst ch.
  destruct s as [| c2 s2]; [reflexivity |].
  destruct c2 as [[] [] [] [] [] [] [] []]; try reflexivity.
  rewrite (proj2 (prefix_spec _ _)) in P; [discriminate P | by exists s2].
Qed.

(** X6: what the [sed] expression makes of any line: a line without
    quote-v passes through unchanged; otherwise the result is the line
    itself or a text without double quote that stands in the line between
    quote-v and a closing quote. *)
Theorem sed_strip_v_cases (line : string) :
  (includes line (dq +:+ "v") = false -> sed_strip_v line = line)
  /\ (sed_strip_v line = line
      \/ (quote_free (sed_strip_v line) = true
          /\ exists pre post,
               line = pre +:+ dq +:+ "v" +:+ sed_strip_v line +:+ dq +:+ post)).
Proof.
  unfold sed_strip_v. split.
  - intros H. by rewrite sed_capture_none.
  - destruct (sed_capture line) as [cap |] eqn:E; simpl; [| by left].
    right. by apply sed_capture_sound.
Qed.

Lemma sed_strip_v_cases_witness :
  sed_strip_v "tag_name: 0.0.12" = "tag_name: 0.0.12".
Proof.
  exact (proj1 (sed_strip_v_cases "tag_name: 0.0.12") eq_refl).
Defined.

(** The resolver writes no file, asks at most the one endpoint, returns no
    empty version and fails with exit code 1 only. *)
Lemma resolve_version_effects (env : Env) (version : string) (st : State) :
  fs (resolve_version env version st).2 = fs st
  /\ (forall v, (resolve_version env version st).1 = Ret v -> v <> "")
  /\ (forall code, (resolve_version env version st).1 = Exit code -> code = 1)
  /\ (net_calls (resolve_version env version st).2
      = if String.eqb version "" then (net_calls st ++ [latest_url])%list
        else net_calls st)
  /\ (forall argv, Run argv ∈ trace (resolve_version env version st).2 ->
                   Run argv ∈ trace st).
Proof.
  unfold resolve_version.
  destruct (String.eqb version "") eqn:V.
  - shell_unfold. simpl.
    assert (R : forall argv (t : list Event) (es : list Event),
               Forall (fun e => forall a, e <> Run a) es ->
               Run argv ∈ (t ++ es)%list -> Run argv ∈ t).
    { intros argv t es F [H | H]%elem_of_app; [exact H |].
      rewrite Forall_forall in F. by destruct (F _ H argv). }
    destruct (curl env latest_url) as [body | code]; simpl.
    + destruct (grep tag_pattern (lines body)) as [| line rest]; simpl.
      * split; [reflexivity |]. split; [intros; discriminate |].
        split; [by intros c [= <-] |]. split; [by net_simpl |].
        intros argv. rewrite <- app_assoc. apply R. by repeat constructor.
      * destruct (String.eqb (sed_strip_v line) "") eqn:E; simpl.
        -- split; [reflexivity |]. split; [intros; discriminate |].
           split; [by intros c [= <-] |]. split; [by net_simpl |].
           intros argv. rewrite <- !app_assoc. apply R. by repeat constructor.
        -- split; [reflexivity |]. split.
           { intros v [= <-]. by apply String.eqb_neq. }
           split; [intros; discriminate |]. split; [by net_simpl |].
           intros argv. rewrite <- app_assoc. apply R. by repeat constructor.
    + destruct code; simpl;
      (split; [reflexivity |]; split; [intros; discriminate |];
      split; [by intros c [= <-] |]; split; [by net_simpl |];
      intros argv; rewrite <- app_assoc; apply R; by repeat constructor).
  - simpl. split; [reflexivity |]. split.
    { intros v [= <-]. by apply String.eqb_neq. }
    split; [intros; discriminate |]. split; [reflexivity | done].
Qed.



End InstallerResolve.

(** ** Exit codes of the install script *)

Module InstallerExit.
Import Text Shell Installer Spec More InstallerProofs.

Lemma bind_ret_inv {A B} (m : M A) (k : A -> M B) (st st' : State) (b : B) :
  (m ≫= k) st = (Ret b, st') ->
  exists a s1, m st = (Ret a, s1) /\ k a s1 = (Ret b, st').
Proof.
  unfold mbind, M_bind. destruct (m st) as [[a | c] s1]; [eauto | discriminate].
Qed.

Lemma bind_exit_inv {A B} (m : M A) (k : A -> M B) (st st' : State) (code : Z) :
  (m ≫= k) st = (Exit code, st') ->
  m st = (Exit code, st')
  \/ exists a s1, m st = (Ret a, s1) /\ k a s1 = (Exit code, st').
Proof.
  unfold mbind, M_bind. destruct (m st) as [[a | c] s1]; intros H;
    [right; eauto | injection H as -> ->; by left].
Qed.

Lemma fails_nonzero_bind {A B} (m : M A) (k : A -> M B) :
  fails_nonzero m -> (forall a, fails_nonzero (k a)) -> fails_nonzero (m ≫= k).
Proof.
  intros Hm Hk st code st' [H | (a & s1 & _ & H)]%bind_exit_inv.
  - by apply (Hm _ _ _ H).
  - by apply (Hk a _ _ _ H).
Qed.

Lemma never_exits_fails_nonzero {A} (m : M A) : never_exits m -> fails_nonzero m.
Proof. intros H st code st' E. destruct (H st) as (a & s1 & E'). congruence. Qed.

Lemma fails_nonzero_ret {A} (a : A) : fails_nonzero (mret a : M A).
Proof. intros st code st' [=]. Qed.

Lemma fails_nonzero_emit (e : Event) : fails_nonzero (emit e).
Proof. intros st code st' [=]. Qed.

Lemma fails_nonzero_fail {A} (msg : string) : fails_nonzero (@fail A msg).
Proof. intros st code st' [= <- _]. done. Qed.

Lemma fails_nonzero_errexit (status : Z) : fails_nonzero (errexit status).
Proof.
  intros st code st'. unfold errexit.
  destruct (status =? 0) eqn:E; [intros [=] |].
  intros [= <- _]. by apply Z.eqb_neq.
Qed.

Lemma fails_nonzero_run (env : Env) (argv : list string) (k : Z -> M unit) :
  (forall s, fails_nonzero (k s)) -> fails_nonzero (run env argv ≫= k).
Proof.
  intros H. apply fails_nonzero_bind; [| exact H].
  intros st code st' [=].
Qed.

Lemma fails_nonzero_download (env : Env) (path url : string) :
  fails_nonzero (download env path url).
Proof.
  intros st code st'. unfold download. shell_unfold. simpl.
  destruct (curl env url); simpl; [intros [=] | by intros [= <- _]].
Qed.

Lemma fails_nonzero_verify (env : Env) (c : Ctx) (file : string) :
  fails_nonzero (verify_signature env c file).
Proof.
  apply never_exits_fails_nonzero. intros st.
  destruct (verify_signature_returns env c file st) as (o & st' & H & _). eauto.
Qed.

Ltac nonzero :=
  repeat first
    [ apply fails_nonzero_download
    | apply fails_nonzero_verify
    | apply fails_nonzero_emit
    | apply fails_nonzero_ret
    | apply fails_nonzero_fail
    | apply fails_nonzero_errexit
    | apply fails_nonzero_run; intros
    | apply fails_nonzero_bind; [| intros] ].

Lemma fails_nonzero_install_deb (env : Env) (c : Ctx) : fails_nonzero (install_deb env c).
Proof. unfold install_deb, info, echo, remove_file. nonzero. intros st code st' [=]. Qed.

Lemma fails_nonzero_install_rpm (env : Env) (c : Ctx) : fails_nonzero (install_rpm env c).
Proof. unfold install_rpm, info, remove_file. nonzero. intros st code st' [=]. Qed.

Lemma fails_nonzero_install_pacman (env : Env) : fails_nonzero (install_pacman env).
Proof.
  unfold install_pacman, info, echo, warn.
  destruct (select_helper env) as [[] |]; nonzero.
  by intros st code st' [= <- _].
Qed.

Lemma fails_nonzero_install_appimage (env : Env) (c : Ctx) :
  fails_nonzero (install_appimage env c).
Proof.
  unfold install_appimage, info, echo, warn, ok, chmod_x.
  destruct (in_search_path env); simpl; nonzero; intros st code st' [=].
Qed.

Lemma fails_nonzero_install_managed (env : Env) : fails_nonzero (install_managed env).
Proof.
  unfold install_managed, info. nonzero.
  destruct (_ =? 0); nonzero.
Qed.

Lemma fails_nonzero_main (env : Env) (c : Ctx) : fails_nonzero (main env c).
Proof.
  unfold main. apply fails_nonzero_bind; [intros st code st' [=] |].
  intros st. destruct (select_strategy (probe env st)); simpl.
  - apply fails_nonzero_install_managed.
  - apply fails_nonzero_install_deb.
  - apply fails_nonzero_install_rpm.
  - apply fails_nonzero_install_pacman.
  - apply fails_nonzero_install_appimage.
Qed.

Lemma fails_nonzero_resolve (env : Env) (version : string) :
  fails_nonzero (resolve_version env version).
Proof.
  intros st code st' H.
  destruct (InstallerResolve.resolve_version_effects env version st) as (_ & _ & X & _).
  rewrite H in X. by rewrite (X code eq_refl).
Qed.

Lemma fails_nonzero_detect (env : Env) : fails_nonzero (detect_arch env).
Proof. unfold detect_arch. split_if; nonzero. Qed.

Lemma fails_nonzero_need (env : Env) (name : string) : fails_nonzero (need env name).
Proof. unfold need. split_if; nonzero. Qed.

(** How the argument loop can end the run: with the usage line and code 0,
    or with code 1. *)
Lemma parse_args_exit (args : list string) :
  forall version skip st code st',
    parse_args args version skip st = (Exit code, st') ->
    (code = 0 /\ st' = {| fs := fs st; trace := trace st ++ [usage_line] |})
    \/ code = 1.
Proof.
  induction args as [| a | a b rest IH1 IH2] using InstallerStart.args_pair_ind;
    intros version skip st code st'.
  - intros [=].
  - simpl.
    destruct (String.eqb a "--version" || String.eqb a "-v");
      [intros [= <- _]; by right |].
    destruct (String.eqb a "--skip-verify"); [intros [=] |].
    destruct (String.eqb a "--help" || String.eqb a "-h");
      intros [= <- <-]; [by left | by right].
  - simpl.
    destruct (String.eqb a "--version" || String.eqb a "-v"); [apply IH1 |].
    destruct (String.eqb a "--skip-verify"); [apply IH2 |].
    destruct (String.eqb a "--help" || String.eqb a "-h");
      intros [= <- <-]; [by left | by right].
Qed.

(** X8: what the exit status of the install script means.  A run that
    reaches the end of the script has printed the three success lines last.
    A run that ends with exit code 0 before that is a request for help: the
    usage line is all it printed and nothing was written.  Every other way
    the script ends has a non-zero exit code. *)
Theorem exit_code_zero_means_help_or_success
    (env : Env) (args : list string) (files : gmap string File) :
  ((install_sh env args (start files)).1 = Ret tt ->
     exists t, trace (install_sh env args (start files)).2 = (t ++ success_lines)%list)
  /\ (forall code, (install_sh env args (start files)).1 = Exit code ->
        code <> 0
        \/ (install_sh env args (start files)).2
           = {| fs := files; trace := [usage_line] |}).
Proof.
  destruct (install_sh env args (start files)) as [r st'] eqn:E. simpl. split.
  - intros ->. unfold install_sh in E.
    apply bind_ret_inv in E as ([v k] & s1 & _ & E).
    do 6 (apply bind_ret_inv in E as (? & ? & _ & E)).
    injection E as <-. simpl. rewrite <- !app_assoc. by eexists.
  - intros code ->. unfold install_sh in E.
    apply bind_exit_inv in E as [E | ([v k] & s1 & _ & E)].
    + destruct (parse_args_exit _ _ _ _ _ _ E) as [[-> ->] | ->];
        [by right | by left].
    + left. revert E. generalize s1 code st'.
      change (fails_nonzero
        (need env "curl" ≫= fun _ =>
         detect_arch env ≫= fun arch =>
         info ("Detected architecture: " +:+ arch) ≫= fun _ =>
         resolve_version env v ≫= fun version =>
         info ("Installing McpMux v" +:+ version) ≫= fun _ =>
         main env {| VERSION := version; ARCH := arch; SKIP_VERIFY := k |} ≫= fun _ =>
         echo "" ≫= fun _ =>
         ok "McpMux installed successfully!" ≫= fun _ =>
         echo "Run 'mcpmux' to start.")).
      unfold info, echo, ok.
      repeat first
        [ apply fails_nonzero_emit
        | apply fails_nonzero_need
        | apply fails_nonzero_detect
        | apply fails_nonzero_resolve
        | apply fails_nonzero_main
        | apply fails_nonzero_bind; [| intros] ].
Qed.

Lemma exit_code_zero_means_help_or_success_witness :
  exists t, trace (install_sh Samples.host [] (start ∅)).2 = (t ++ success_lines)%list.
Proof.
  refine (proj1 (exit_code_zero_means_help_or_success Samples.host [] ∅) _).
  vm_compute. reflexivity.
Defined.

End InstallerExit.

(** ** The strategies *)

Module InstallerStrategies.
Import Text Shell Installer Spec More InstallerProofs TextFacts.

(** The script up to the resolver, for accepted arguments on a supported
    machine with [curl]. *)
Lemma install_sh_reaches_resolver
    (env : Env) (args : list string) (files : gmap string File)
    (v : string) (k : bool) (arch : string) :
  (parse_args args "" false (start files)).1 = Ret (v, k) ->
  command_v env "curl" = true ->
  (detect_arch env (start files)).1 = Ret arch ->
  install_sh env args (start files) =
    (version ← resolve_version env v;
     info ("Installing McpMux v" +:+ version);;
     main env {| VERSION := version; ARCH := arch; SKIP_VERIFY := k |};;
     echo "";;
     ok "McpMux installed successfully!";;
     echo "Run 'mcpmux' to start.")
      {| fs := files; trace := [LogInfo ("Detected architecture: " +:+ arch)] |}.
Proof.
  intros H C D.
  pose proof (parse_args_pure args "" false (start files)) as (_ & _ & P).
  destruct (parse_args args "" false (start files)) as [r st0] eqn:E.
  simpl in H, P. subst r. specialize (P _ eq_refl). subst st0.
  unfold install_sh, need. unfold mbind at 1. unfold M_bind at 1.
  rewrite E, C.
  unfold mbind at 1. unfold M_bind at 1. unfold mret at 1. unfold M_ret at 1.
  unfold mbind at 1. unfold M_bind at 1.
  revert D. unfold detect_arch.
  destruct (String.eqb (uname_m env) "x86_64");
    [| destruct (String.eqb (uname_m env) "aarch64")];
    simpl; intros [= <-]; reflexivity.
Qed.



(** X10: the managed repository comes first and works through apt alone.
    When the repository file exists the dispatch runs [apt-get update] and
    then [apt-get install -y mcpmux], whatever other package managers are
    installed and whatever version, architecture and skip flag were asked
    for; it makes no request and writes no file.  When [apt-get update]
    fails, [apt-get install] is not started and the dispatch still returns,
    so that the script goes on to its success lines; when the update
    succeeds, the status of [apt-get install] decides. *)
Theorem managed_repo_uses_apt_only (env : Env) (c : Ctx) (st : State) :
  is_Some (fs st !! apt_list_path) ->
  let update := ["sudo"; "apt-get"; "update"] in
  let install := ["sudo"; "apt-get"; "install"; "-y"; "mcpmux"] in
  let detected := LogInfo "McpMux APT repository detected — using apt..." in
  (exec env update <> 0 ->
     main env c st =
       (Ret tt, {| fs := fs st; trace := trace st ++ [detected; Run update] |}))
  /\ (exec env update = 0 ->
        main env c st =
          (if exec env install =? 0 then Ret tt else Exit (exec env install),
           {| fs := fs st;
              trace := trace st ++ [detected; Run update; Run install] |})).
Proof.
  intros R. cbv zeta.
  assert (M : main env c st = install_managed env st).
  { unfold main, get, mbind, M_bind, select_strategy, probe. simpl.
    by rewrite bool_decide_eq_true_2. }
  rewrite M. unfold install_managed. shell_unfold. simpl. split; intros U.
  - apply Z.eqb_neq in U. rewrite U. by rewrite <- !app_assoc.
  - rewrite U. simpl.
    destruct (_ =? 0); simpl; by rewrite <- !app_assoc.
Qed.

Lemma managed_repo_uses_apt_only_witness :
  main (Samples.with_failing ["sudo"; "apt-get"; "update"] 100 Samples.host)
       Samples.ctx Samples.stale
  = (Ret tt,
     {| fs := fs Samples.stale;
        trace := [LogInfo "McpMux APT repository detected — using apt...";
                  Run ["sudo"; "apt-get"; "update"]] |}).
Proof.
  refine (proj1 (managed_repo_uses_apt_only
    (Samples.with_failing ["sudo"; "apt-get"; "update"] 100 Samples.host)
    Samples.ctx Samples.stale _) _).
  - eexists. vm_compute. reflexivity.
  - discriminate.
Defined.

(** X11: a failed [apt-get update] is reported as success.  On a host with
    the repository file, for accepted arguments with a non-empty version, on
    a supported machine with [curl]: when [apt-get update] fails, the script
    never starts [apt-get install], prints "McpMux installed successfully!"
    and runs to its end, that is exit status 0; it makes no request and
    writes no file. *)
Theorem failed_update_reported_as_success
    (env : Env) (args : list string) (files : gmap string File)
    (v : string) (k : bool) (arch : string) :
  (parse_args args "" false (start files)).1 = Ret (v, k) ->
  v <> "" ->
  command_v env "curl" = true ->
  (detect_arch env (start files)).1 = Ret arch ->
  is_Some (files !! apt_list_path) ->
  exec env ["sudo"; "apt-get"; "update"] <> 0 ->
  install_sh env args (start files) =
    (Ret tt,
     {| fs := files;
        trace := [LogInfo ("Detected architecture: " +:+ arch);
                  LogInfo ("Installing McpMux v" +:+ v);
                  LogInfo "McpMux APT repository detected — using apt...";
                  Run ["sudo"; "apt-get"; "update"];
                  Echo "";
                  LogOk "McpMux installed successfully!";
                  Echo "Run 'mcpmux' to start."] |}).
Proof.
  intros H V C D R U.
  rewrite (install_sh_reaches_resolver env args files v k arch H C D).
  apply String.eqb_neq in V. apply Z.eqb_neq in U.
  unfold resolve_version. rewrite V.
  unfold main, install_managed, select_strategy, probe. shell_unfold. simpl.
  rewrite bool_decide_eq_true_2 by done. simpl.
  unfold install_managed. shell_unfold. simpl. by rewrite U.
Qed.

Lemma failed_update_reported_as_success_witness :
  install_sh (Samples.with_failing ["sudo"; "apt-get"; "update"] 100 Samples.host)
    ["--version"; "0.0.12"] (start (fs Samples.stale))
  = (Ret tt,
     {| fs := fs Samples.stale;
        trace := [LogInfo "Detected architecture: amd64";
                  LogInfo "Installing McpMux v0.0.12";
                  LogInfo "McpMux APT repository detected — using apt...";
                  Run ["sudo"; "apt-get"; "update"];
                  Echo "";
                  LogOk "McpMux installed successfully!";
                  Echo "Run 'mcpmux' to start."] |}).
Proof.
  refine (failed_update_reported_as_success
    (Samples.with_failing ["sudo"; "apt-get"; "update"] 100 Samples.host)
    ["--version"; "0.0.12"] (fs Samples.stale) "0.0.12" false "amd64"
    eq_refl _ eq_refl eq_refl _ _).
  - discriminate.
  - eexists. vm_compute. reflexivity.
  - discriminate.
Defined.



End InstallerStrategies.

(** ** Signature verification: files, requests and names *)

Module InstallerVerify.
Import Text Shell Installer Spec More InstallerProofs TextFacts.


(** X14: the requests of verification.  With the skip flag, or without
    [gpg], nothing is requested.  Otherwise the signature is requested once;
    the publisher's key is requested after it, once, only when the signature
    was fetched and the key is not in the keyring yet. *)
Theorem verify_requests (env : Env) (c : Ctx) (file : string) (st : State) :
  net_calls (verify_signature env c file st).2 =
    (net_calls st ++
     if SKIP_VERIFY c || negb (command_v env "gpg") then []
     else sig_url_of c file ::
          match curl env (sig_url_of c file) with
          | CurlOk _ => if gpg_list_keys env then [] else [key_url]
          | CurlErr _ => []
          end)%list.
Proof.
  unfold verify_signature.
  destruct (SKIP_VERIFY c); [| destruct (command_v env "gpg")];
    shell_unfold; simpl; try by net_simpl.
  destruct (curl env (sig_url_of c file)) as [body | code]; simpl;
    [| by net_simpl].
  destruct (gpg_list_keys env); simpl; split_if; net_simpl;
    by rewrite <- ?app_assoc.
Qed.

Lemma basename_from_plain (name cur : string) :
  includes name "/" = false -> basename_from cur name = cur +:+ name.
Proof.
  revert cur. induction name as [| ch name IH]; intros cur.
  - intros _. simpl. by rewrite append_empty_r.
  - change (includes (String ch name) "/")
      with (String.prefix "/" (String ch name) || includes name "/").
    intros [P I]%orb_false_iff. simpl.
    destruct (Ascii.eqb ch "/") eqn:E.
    + apply Ascii.eqb_eq in E. subst ch.
      rewrite (proj2 (prefix_spec _ _)) in P; [discriminate P | by exists name].
    + rewrite (IH _ I). rewrite append_assoc. reflexivity.
Qed.

Lemma basename_from_dir_name (dir name : string) :
  includes name "/" = false ->
  forall cur, basename_from cur (dir +:+ "/" +:+ name) = name.
Proof.
  intros H. induction dir as [| ch dir IH]; intros cur.
  - change ("" +:+ "/" +:+ name) with (String "/" name). simpl.
    by apply (basename_from_plain name "").
  - rewrite append_cons. simpl. destruct (Ascii.eqb ch "/"); apply IH.
Qed.

(** The base name of a path that ends in a slash and a name without
    slash. *)
Lemma basename_of_dir_name (dir name : string) :
  includes name "/" = false -> basename (dir +:+ "/" +:+ name) = name.
Proof. intros H. by apply basename_from_dir_name. Qed.

(** X15: the signature is asked for under the name of the local file, not
    under the name of the release artifact: [mcpmux.deb.sig],
    [mcpmux.rpm.sig] and, whatever the home directory,
    [McpMux.AppImage.sig], in the release directory of the version.  These
    are never the URL of the artifact followed by [.sig]. *)
Theorem signature_url_uses_local_name (env : Env) (c : Ctx) :
  sig_url_of c deb_tmp = release_url c "mcpmux.deb.sig"
  /\ sig_url_of c rpm_tmp = release_url c "mcpmux.rpm.sig"
  /\ sig_url_of c (install_path env) = release_url c "McpMux.AppImage.sig"
  /\ sig_url_of c deb_tmp <> release_url c (deb_name c) +:+ ".sig"
  /\ sig_url_of c rpm_tmp <> release_url c (rpm_name c) +:+ ".sig"
  /\ sig_url_of c (install_path env) <> release_url c (appimage_name c) +:+ ".sig".
Proof.
  assert (A : sig_url_of c (install_path env) = release_url c "McpMux.AppImage.sig").
  { unfold sig_url_of, install_path.
    change (install_dir env +:+ "/McpMux.AppImage")
      with (install_dir env +:+ "/" +:+ "McpMux.AppImage").
    by rewrite (basename_of_dir_name (install_dir env) "McpMux.AppImage"). }
  assert (I : forall x y, release_url c x = release_url c y +:+ ".sig" ->
                          x = y +:+ ".sig").
  { intros x y H. unfold release_url in H.
    rewrite !append_assoc in H.
    by do 5 apply (inj (String.append _)) in H. }
  split; [reflexivity |]. split; [reflexivity |]. split; [exact A |].
  split; [| split].
  - intros H. apply I in H. discriminate H.
  - intros H. apply I in H. discriminate H.
  - rewrite A. intros H. apply I in H. discriminate H.
Qed.

End InstallerVerify.

(** ** The routes of the front-end *)

Module FrontendRoutes.
Import Text Frontend Spec TextFacts.

Lemma install_script_is_not_apt_script : installScript <> aptSetupScript.
Proof. apply String.eqb_neq. vm_compute. reflexivity. Qed.

Lemma install_script_is_not_landing_page : installScript <> landingPage.
Proof. apply String.eqb_neq. vm_compute. reflexivity. Qed.

Lemma apt_script_is_not_landing_page : aptSetupScript <> landingPage.
Proof. apply String.eqb_neq. vm_compute. reflexivity. Qed.

(** The router, route by route. *)
Lemma app_cases (req : Request) :
  (method req = GET /\ path req = "/" /\ app req = handle_root req)
  \/ (method req = GET /\ path req = "/install.sh"
      /\ app req = NewResponse installScript script_headers)
  \/ (method req = GET /\ path req = "/apt"
      /\ app req = NewResponse aptSetupScript script_headers)
  \/ (method req = GET /\ path req = "/health"
      /\ app req = Json [("status", "ok"); ("service", "mcpmux-install")])
  \/ ((method req <> GET
       \/ (path req <> "/" /\ path req <> "/install.sh"
           /\ path req <> "/apt" /\ path req <> "/health"))
      /\ app req = notFound req).
Proof.
  unfold app. destruct (method req); [| right; right; right; right; split; [by left | done]].
  destruct (String.eqb (path req) "/") eqn:E1.
  { apply String.eqb_eq in E1. by left. }
  destruct (String.eqb (path req) "/install.sh") eqn:E2.
  { apply String.eqb_eq in E2. right. by left. }
  destruct (String.eqb (path req) "/apt") eqn:E3.
  { apply String.eqb_eq in E3. right. right. by left. }
  destruct (String.eqb (path req) "/health") eqn:E4.
  { apply String.eqb_eq in E4. right. right. right. by left. }
  apply String.eqb_neq in E1, E2, E3, E4.
  right. right. right. right. split; [right | reflexivity]. done.
Qed.

Lemma handle_root_cases (req : Request) :
  (raw_mode req = true /\ handle_root req = NewResponse installScript script_headers)
  \/ (raw_mode req = false /\ handle_root req = Html landingPage).
Proof.
  unfold raw_mode, handle_root.
  destruct (isBrowser req), (truthy (query_raw req)); simpl; auto.
Qed.


(** X17: which requests get which script.  The body is the install script
    exactly for a GET of [/install.sh] or a GET of [/] in raw mode, and the
    APT setup script exactly for a GET of [/apt]; in these cases the response
    carries the two script headers, and [/install.sh] and [/apt] do not look
    at the User-Agent or the query. *)
Theorem script_routes (req : Request) :
  (body_of (app req) = Some installScript <->
     method req = GET
     /\ (path req = "/install.sh" \/ (path req = "/" /\ raw_mode req = true)))
  /\ (body_of (app req) = Some aptSetupScript <->
        method req = GET /\ path req = "/apt")
  /\ (body_of (app req) = Some installScript \/ body_of (app req) = Some aptSetupScript ->
        header "Content-Type" (app req) = Some "text/plain; charset=utf-8"
        /\ header "Cache-Control" (app req) = Some "public, max-age=300").
Proof.
  pose proof install_script_is_not_apt_script as D1.
  pose proof install_script_is_not_landing_page as D2.
  pose proof apt_script_is_not_landing_page as D3.
  destruct (app_cases req)
    as [(M & P & A) | [(M & P & A) | [(M & P & A) | [(M & P & A) | (N & A)]]]];
    rewrite A.
  - destruct (handle_root_cases req) as [[Rm H] | [Rm H]]; rewrite H; simpl.
    + split; [| split]; [| | done].
      * split; [intros _; split; [done | right; done] | done].
      * split; [intros [= E]; by destruct D1 |].
        intros (_ & P'). rewrite P in P'. discriminate.
    + split; [| split].
      * split; [intros [= E]; by destruct D2 |].
        intros (_ & [P' | (_ & Rm')]); [rewrite P in P'; discriminate | congruence].
      * split; [intros [= E]; by destruct D3 |].
        intros (_ & P'). rewrite P in P'. discriminate.
      * intros [[= E] | [= E]]; try (by destruct D2); try (by destruct D3).
  - simpl. split; [| split]; [| | done].
    + split; [intros _; split; [done | by left] | done].
    + split; [intros [= E]; by destruct D1 |].
      intros (_ & P'). rewrite P in P'. discriminate.
  - simpl. split; [| split]; [| | done].
    + split; [intros [= E]; by destruct D1 |].
      intros (_ & [P' | (P' & _)]); rewrite P in P'; discriminate.
    + split; done.
  - simpl. split; [| split].
    + split; [discriminate |].
      intros (_ & [P' | (P' & _)]); rewrite P in P'; discriminate.
    + split; [discriminate |]. intros (_ & P'). rewrite P in P'. discriminate.
    + intros [? | ?]; discriminate.
  - assert (T1 : body_of (notFound req) <> Some installScript).
    { discriminate. }
    assert (T2 : body_of (notFound req) <> Some aptSetupScript).
    { discriminate. }
    split; [| split].
    + split; [intros E; by destruct T1 |].
      intros (M' & [P' | (P' & _)]);
        destruct N as [N | (N1 & N2 & _)]; contradiction.
    + split; [intros E; by destruct T2 |].
      intros (M' & P'). destruct N as [N | (_ & _ & N3 & _)]; contradiction.
    + intros [E | E]; [by destruct T1 | by destruct T2].
Qed.


(** X19: what counts as a browser.  A request is taken for a browser
    exactly when it has a User-Agent header in which Mozilla, Chrome or
    Safari occurs as a substring, in this spelling. *)
Theorem is_browser_iff_substring (req : Request) :
  isBrowser req = true <->
  exists ua pre word post,
    user_agent req = Some ua
    /\ ua = pre +:+ word +:+ post
    /\ (word = "Mozilla" \/ word = "Chrome" \/ word = "Safari").
Proof.
  unfold isBrowser. rewrite !orb_true_iff, !includes_spec.
  destruct (user_agent req) as [ua |]; simpl.
  - split.
    + intros [[(pre & post & H) | (pre & post & H)] | (pre & post & H)];
        exists ua, pre; eexists; exists post; (split; [reflexivity |]);
        (split; [exact H |]); tauto.
    + intros (ua' & pre & word & post & [= <-] & H & [-> | [-> | ->]]); eauto 6.
  - split.
    + intros [[(pre & post & H) | (pre & post & H)] | (pre & post & H)];
        destruct pre; discriminate.
    + intros (ua' & pre & word & post & [=] & _).
Qed.

End FrontendRoutes.

(** ** The APT setup script: what it needs and what it leaves *)

Module AptSetupMore.
Import Text Shell AptSetup More AptSetupProofs.

(** X20: without root nothing happens.  When [id -u] is not 0 the APT setup
    script ends with exit code 1 and the message that it must be run as
    root; it makes no request, starts no command and writes no file. *)
Theorem setup_requires_root (env : Env) (st : State) :
  id_u env <> 0 ->
  apt_setup env st =
    (Exit 1,
     {| fs := fs st;
        trace := trace st ++
          [LogFail "This script must be run as root (use: curl ... | sudo bash)"] |}).
Proof.
  intros H. apply Z.eqb_neq in H. setup_unfold. simpl. by rewrite H.
Qed.

Lemma setup_requires_root_witness :
  apt_setup
    {| uname_m := "x86_64"; HOME := "/home/u"; PATH := "/usr/bin";
       command_v := fun _ => true; curl := fun _ => CurlOk "key";
       gpg_list_keys := true; gpg_verify := fun _ _ => true;
       exec := fun _ => 0; id_u := 1000; dpkg_arch := "amd64";
       gpg_dearmor := fun k => Some k; gpg_overwrite := true |}
    Samples.stale
  = (Exit 1,
     {| fs := fs Samples.stale;
        trace := [LogFail "This script must be run as root (use: curl ... | sudo bash)"] |}).
Proof.
  refine (setup_requires_root
    {| uname_m := "x86_64"; HOME := "/home/u"; PATH := "/usr/bin";
       command_v := fun _ => true; curl := fun _ => CurlOk "key";
       gpg_list_keys := true; gpg_verify := fun _ _ => true;
       exec := fun _ => 0; id_u := 1000; dpkg_arch := "amd64";
       gpg_dearmor := fun k => Some k; gpg_overwrite := true |}
    Samples.stale _).
  discriminate.
Defined.

(** X21: when the APT setup script reaches its end.  It does so exactly
    when it runs as root, the key was fetched and gpg could read it, gpg was
    allowed to replace a keyring that was already there, and both
    [apt-get update] and [apt-get install] succeeded. *)
Theorem setup_succeeds_iff (env : Env) (st : State) :
  (apt_setup env st).1 = Ret tt <->
  id_u env = 0
  /\ (exists armored key,
        curl env key_url = CurlOk armored /\ gpg_dearmor env armored = Some key)
  /\ (is_Some (fs st !! keyring_path) -> gpg_overwrite env = true)
  /\ exec env ["apt-get"; "update"] = 0
  /\ exec env ["apt-get"; "install"; "-y"; "mcpmux"] = 0.
Proof.
  setup_unfold. simpl.
  destruct (id_u env =? 0) eqn:I; simpl.
  2: { apply Z.eqb_neq in I. split; [discriminate | tauto]. }
  apply Z.eqb_eq in I.
  destruct (curl env key_url) as [armored | code]; simpl.
  - destruct (bool_decide (is_Some (fs st !! keyring_path))) eqn:B;
      destruct (gpg_overwrite env) eqn:O; simpl.
    all: try (apply bool_decide_eq_true_1 in B).
    all: try (apply bool_decide_eq_false_1 in B).
    2: { split; [discriminate |]. intros (_ & _ & H & _). by specialize (H B). }
    all: destruct (gpg_dearmor env armored) as [key |] eqn:K; simpl.
    all: try (split; [discriminate | by intros (_ & (a & k' & [= <-] & K') & _); congruence]).
    all: destruct (exec env ["apt-get"; "update"] =? 0) eqn:U; simpl.
    all: try (apply Z.eqb_neq in U; split; [discriminate | tauto]).
    all: destruct (exec env ["apt-get"; "install"; "-y"; "mcpmux"] =? 0) eqn:N; simpl.
    all: try (apply Z.eqb_neq in N; split; [discriminate | tauto]).
    all: apply Z.eqb_eq in U, N; split; [intros _ | done].
    all: (split; [done |]; split; [by exists armored, key |]; split; [| done]).
    all: try done.
  - destruct (bool_decide (is_Some (fs st !! keyring_path)) && negb (gpg_overwrite env));
      simpl.
    + split; [discriminate | by intros (_ & (a & k & [=] & _) & _)].
    + destruct (gpg_dearmor env "") as [key |]; simpl;
        (split; [discriminate | by intros (_ & (a & k & [=] & _) & _)]).
Qed.

(** X22: the source list is only written behind a keyring.  After any run,
    either the source-list file is as it was, or the run fetched the key,
    gpg wrote it, and the keyring file holds that key. *)
Theorem source_list_needs_keyring (env : Env) (st : State) :
  fs (apt_setup env st).2 !! list_path = fs st !! list_path
  \/ exists armored key,
       curl env key_url = CurlOk armored
       /\ gpg_dearmor env armored = Some key
       /\ content <$> fs (apt_setup env st).2 !! keyring_path = Some key.
Proof.
  pose proof paths_differ as Hne.
  rewrite apt_setup_files. unfold files_after_setup.
  destruct (id_u env =? 0); [| by left].
  destruct (curl env key_url) as [armored | code].
  - destruct (bool_decide (is_Some (fs st !! keyring_path)) && negb (gpg_overwrite env));
      [by left |].
    destruct (gpg_dearmor env armored) as [key |] eqn:K; [| by left].
    right. exists armored, key. split; [reflexivity |]. split; [exact K |].
    simpl. rewrite lookup_insert_ne by (by apply not_eq_sym).
    by rewrite lookup_insert_eq.
  - left.
    destruct (bool_decide (is_Some (fs st !! keyring_path)) && negb (gpg_overwrite env));
      [done |].
    destruct (gpg_dearmor env "") as [key |]; [| done].
    simpl. by rewrite lookup_insert_ne.
Qed.

(** X23: nothing is rolled back.  When the key was fetched and written and
    [apt-get update] then fails, the script ends with the status of
    [apt-get update]; [apt-get install] is not started, and the new keyring
    and the new source list stay in place. *)
Theorem failed_update_keeps_files
    (env : Env) (st : State) (armored key : string) :
  id_u env = 0 ->
  curl env key_url = CurlOk armored ->
  gpg_dearmor env armored = Some key ->
  (is_Some (fs st !! keyring_path) -> gpg_overwrite env = true) ->
  exec env ["apt-get"; "update"] <> 0 ->
  (apt_setup env st).1 = Exit (exec env ["apt-get"; "update"])
  /\ trace (apt_setup env st).2 =
       (trace st ++
        [LogInfo "Adding McpMux APT repository..."; Net key_url;
         Run ["gpg"; "--dearmor"; "-o"; keyring_path];
         Run ["apt-get"; "update"]])%list
  /\ content <$> fs (apt_setup env st).2 !! keyring_path = Some key
  /\ content <$> fs (apt_setup env st).2 !! list_path
     = Some (source_entry (dpkg_arch env) +:+ nl).
Proof.
  intros I C K O U. pose proof paths_differ as Hne.
  apply Z.eqb_neq in U.
  assert (B : bool_decide (is_Some (fs st !! keyring_path)) && negb (gpg_overwrite env)
              = false).
  { destruct (bool_decide (is_Some (fs st !! keyring_path))) eqn:E; [| done].
    apply bool_decide_eq_true_1 in E. by rewrite (O E). }
  setup_unfold. simpl. rewrite I, C. simpl. rewrite B, K. simpl. rewrite U. simpl.
  split; [reflexivity |]. split; [by rewrite <- !app_assoc |].
  split.
  - rewrite lookup_insert_ne by (by apply not_eq_sym). by rewrite lookup_insert_eq.
  - by rewrite lookup_insert_eq.
Qed.

Lemma failed_update_keeps_files_witness :
  (apt_setup (Samples.with_failing ["apt-get"; "update"] 100 Samples.host)
     Samples.stale).1 = Exit 100
  /\ content <$> fs (apt_setup (Samples.with_failing ["apt-get"; "update"] 100 Samples.host)
                       Samples.stale).2 !! keyring_path
     = Some "binary:payload".
Proof.
  destruct (failed_update_keeps_files
    (Samples.with_failing ["apt-get"; "update"] 100 Samples.host)
    Samples.stale "payload" "binary:payload" eq_refl eq_refl eq_refl
    (fun _ => eq_refl)) as (A & _ & B & _); [discriminate |].
  split; [exact A | exact B].
Defined.

End AptSetupMore.

(** ** The files the scripts touch *)

Module Footprint.
Import Text Shell Installer Spec More InstallerProofs.



















End Footprint.

Module AptSetupFootprint.
Import Text Shell AptSetup More AptSetupProofs.


End AptSetupFootprint.

(** ** The AppImage *)

Module AppImageMore.
Import Text Shell Installer Spec More InstallerProofs.



End AppImageMore.
